(** * WS2812 PWM/DMA LED driver (ws2812.c): shallow embedding and properties

    The development follows the driver file: C integer conversions, the
    gamma table and [gamma_], the nibble encoder [led_encode], the DMA
    hand-off [issue_dma] with its completion callback [ws2812_callback],
    [clear_leds] and the character-device entry point [ws2812_write].

    Memory is modelled at the granularity the driver uses it: the two
    kmalloc'ed arrays of [struct ws2812_state] are lists of bytes, a pointer
    into [state->buffer] is its byte offset, and an access outside an array
    (undefined in C) makes the modelled function return [None].  Calls into
    the DMA API are recorded, in order, in a trace of events; what the
    platform answers to them is an input of the model. *)

From Stdlib Require Import ZArith Lia Bool String.
From stdpp Require Import base option list.

Local Open Scope Z_scope.

(** ** C integer conversions and array accesses (32-bit ARM, as on the Pi) *)

Module C.

Definition INT_MAX : Z := 2 ^ 31 - 1.

(** conversion to [unsigned char] *)
Definition to_uchar (x : Z) : Z := x mod 256.

(** conversion to [uint32_t] / [size_t] / [unsigned int] *)
Definition to_u32 (x : Z) : Z := x mod 2 ^ 32.

(** conversion to [int] / [ssize_t] (two's complement wrap-around) *)
Definition to_int (x : Z) : Z := (x + 2 ^ 31) mod 2 ^ 32 - 2 ^ 31.

(** [a[i]] as an rvalue *)
Definition index {A} (a : list A) (i : Z) : option A :=
  if i <? 0 then None else a !! Z.to_nat i.

(** [a[i] = v] *)
Definition store {A} (a : list A) (i : Z) (v : A) : option (list A) :=
  if (0 <=? i) && (i <? Z.of_nat (length a))
  then Some (<[Z.to_nat i := v]> a)
  else None.

(** [for (i = start; <n more rounds>; i++) body], the number of rounds
    being known when the loop is entered *)
Fixpoint for_loop {S} (n : nat) (i : Z) (body : Z -> S -> option S) (s : S)
  : option S :=
  match n with
  | O => Some s
  | Datatypes.S n' => s' ← body i s; for_loop n' (i + 1) body s'
  end.

(** [((int32_t * ) a)[i]] for an array of bytes [a] (little-endian) *)
Definition load_int32 (a : list Z) (i : Z) : option Z :=
  b0 ← index a (4 * i);
  b1 ← index a (4 * i + 1);
  b2 ← index a (4 * i + 2);
  b3 ← index a (4 * i + 3);
  Some (to_int (b0 + Z.shiftl b1 8 + Z.shiftl b2 16 + Z.shiftl b3 24)).

End C.

(** ** Constants *)

Definition BYTES_PER_LED : Z := 12.

(** Number of 2.4MHz bits in 50us to create a reset condition *)
Definition RESET_BYTES : Z := Z.quot (50 * 24) 80.

Definition EFAULT : Z := 14.

(** ** Driver state

    The fields of [struct ws2812_state] that the modelled functions read or
    write.  [dev] and [dma_chan] are opaque handles. *)

Record ws2812_state : Type := {
  dev : Z;
  dma_chan : Z;
  dma_addr : Z;
  buffer : list Z;       (* uint8_t *buffer: the bytes of the array *)
  pixbuf : list Z;       (* uint32_t *pixbuf: the bytes of the array *)
  brightness : Z;        (* unsigned char *)
  invert : Z;
  num_leds : Z           (* u32 *)
}.

Definition set_dma_addr (s : ws2812_state) (a : Z) : ws2812_state :=
  {| dev := dev s; dma_chan := dma_chan s; dma_addr := a;
     buffer := buffer s; pixbuf := pixbuf s;
     brightness := brightness s; invert := invert s; num_leds := num_leds s |}.

Definition set_buffer (s : ws2812_state) (b : list Z) : ws2812_state :=
  {| dev := dev s; dma_chan := dma_chan s; dma_addr := dma_addr s;
     buffer := b; pixbuf := pixbuf s;
     brightness := brightness s; invert := invert s; num_leds := num_leds s |}.

Definition set_pixbuf (s : ws2812_state) (p : list Z) : ws2812_state :=
  {| dev := dev s; dma_chan := dma_chan s; dma_addr := dma_addr s;
     buffer := buffer s; pixbuf := p;
     brightness := brightness s; invert := invert s; num_leds := num_leds s |}.

(** [state->buffer[off] = v] *)
Definition poke (s : ws2812_state) (off : Z) (v : Z) : option ws2812_state :=
  b ← C.store (buffer s) off v; Some (set_buffer s b).

(** What probe establishes before any other function runs: the two arrays
    have the sizes they were allocated with, and the frame size is a valid
    [int]. *)
Record state_wf (s : ws2812_state) : Prop := {
  wf_brightness : 0 <= brightness s <= 255;
  wf_num_leds : 0 <= num_leds s;
  wf_frame_fits : num_leds s * BYTES_PER_LED + RESET_BYTES <= C.INT_MAX;
  wf_buffer :
    Z.of_nat (length (buffer s)) = num_leds s * BYTES_PER_LED + RESET_BYTES;
  wf_pixbuf : Z.of_nat (length (pixbuf s)) = num_leds s * 4
}.

(** ** The platform: DMA API calls and their answers *)

Inductive event : Type :=
| Call_dma_map_single (d : Z) (region : list Z) (size : Z) (ret : Z)
| Call_dma_unmap_single (d : Z) (addr : Z) (size : Z)
| Call_prep_slave_single (chan : Z) (addr : Z) (len : Z) (ok : bool)
| Call_dmaengine_submit (chan : Z) (addr : Z) (len : Z)
| Call_issue_pending (chan : Z)
| Call_pr_err (msg : string).

(** The answers of the platform to one [issue_dma]: the bus address
    returned by [dma_map_single] and whether [dmaengine_prep_slave_single]
    returns a descriptor. *)
Record platform : Type := {
  map_result : Z;
  prep_result : bool
}.

(** A streaming mapping: device, bus address, size. *)
Definition mapping : Type := Z * Z * Z.

Definition mapping_eqb (m1 m2 : mapping) : bool :=
  let '(d1, a1, n1) := m1 in
  let '(d2, a2, n2) := m2 in
  (d1 =? d2) && (a1 =? a2) && (n1 =? n2).

Fixpoint release (m : mapping) (held : list mapping) : list mapping :=
  match held with
  | [] => []
  | m' :: held' => if mapping_eqb m m' then held' else m' :: release m held'
  end.

(** The mappings still held after a trace.  A mapping is established by a
    [dma_map_single] that returned a bus address, and released by the
    [dma_unmap_single] of the same device, bus address and size. *)
Fixpoint held_from (tr : list event) (held : list mapping) : list mapping :=
  match tr with
  | [] => held
  | Call_dma_map_single d _ size ret :: tr' =>
      held_from tr' (if ret =? 0 then held else held ++ [(d, ret, size)])
  | Call_dma_unmap_single d addr size :: tr' =>
      held_from tr' (release (d, addr, size) held)
  | _ :: tr' => held_from tr' held
  end.

Definition held_mappings (tr : list event) : list mapping := held_from tr [].

(** ** WS2812B gamma correction *)

Definition GammaE : list Z := [
    0; 0; 0; 0; 0; 0; 0; 0; 0; 0; 0; 0; 0; 0; 0; 0;
    0; 0; 0; 0; 0; 0; 1; 1; 1; 1; 1; 1; 1; 2; 2; 2;
    2; 2; 2; 3; 3; 3; 3; 3; 4; 4; 4; 4; 5; 5; 5; 5;
    6; 6; 6; 7; 7; 7; 8; 8; 8; 9; 9; 9; 10; 10; 11; 11;
    11; 12; 12; 13; 13; 13; 14; 14; 15; 15; 16; 16; 17; 17; 18; 18;
    19; 19; 20; 21; 21; 22; 22; 23; 23; 24; 25; 25; 26; 27; 27; 28;
    29; 29; 30; 31; 31; 32; 33; 34; 34; 35; 36; 37; 37; 38; 39; 40;
    40; 41; 42; 43; 44; 45; 46; 46; 47; 48; 49; 50; 51; 52; 53; 54;
    55; 56; 57; 58; 59; 60; 61; 62; 63; 64; 65; 66; 67; 68; 69; 70;
    71; 72; 73; 74; 76; 77; 78; 79; 80; 81; 83; 84; 85; 86; 88; 89;
    90; 91; 93; 94; 95; 96; 98; 99; 100; 102; 103; 104; 106; 107; 109; 110;
    111; 113; 114; 116; 117; 119; 120; 121; 123; 124; 126; 128; 129; 131; 132; 134;
    135; 137; 138; 140; 142; 143; 145; 146; 148; 150; 151; 153; 155; 157; 158; 160;
    162; 163; 165; 167; 169; 170; 172; 174; 176; 178; 179; 181; 183; 185; 187; 189;
    191; 193; 194; 196; 198; 200; 202; 204; 206; 208; 210; 212; 214; 216; 218; 220;
    222; 224; 227; 229; 231; 233; 235; 237; 239; 241; 244; 246; 248; 250; 252; 255
  ].

(** [unsigned char gamma_(unsigned char brightness, unsigned char val)];
    the arguments are values of type [unsigned char], converted by the
    caller. *)
Definition gamma_ (brightness val : Z) : option Z :=
  let bright := val in
  let bright := Z.quot (C.to_int (bright * brightness)) 255 in
  C.to_uchar <$> C.index GammaE bright.

(** ** LED serial output *)

(** One round of the loop of [led_encode]: the [switch] on the two low bits
    stores a byte through [buf] and advances it. *)
Definition encode_step (s : ws2812_state) (rearrange buf : Z)
  : option (ws2812_state * Z) :=
  match Z.land rearrange 3 with
  | 0 => s' ← poke s buf 0x88; Some (s', buf + 1)
  | 1 => s' ← poke s buf 0x8e; Some (s', buf + 1)
  | 2 => s' ← poke s buf 0xe8; Some (s', buf + 1)
  | 3 => s' ← poke s buf 0xee; Some (s', buf + 1)
  | _ => Some (s, buf)
  end.

(** [for(i = 11; i >= 0; i--)], with [n = i + 1] rounds to go *)
Fixpoint led_encode_loop (n : nat) (s : ws2812_state) (rearrange buf : Z)
  : option (ws2812_state * Z) :=
  match n with
  | O => Some (s, buf)
  | S n' =>
      '(s', buf') ← encode_step s rearrange buf;
      led_encode_loop n' s' (Z.shiftr rearrange 2) buf'
  end.

Definition led_encode (s : ws2812_state) (rgb : Z) (buf : Z)
  : option (ws2812_state * Z) :=
  red ← gamma_ (brightness s) (C.to_uchar (Z.shiftr rgb 8));
  blu ← gamma_ (brightness s) (C.to_uchar rgb);
  grn ← gamma_ (brightness s) (C.to_uchar (Z.shiftr rgb 16));
  let rearrange := C.to_int (red + Z.shiftl blu 8 + Z.shiftl grn 16) in
  led_encode_loop 12 s rearrange buf.

(** ** DMA *)

(** DMA callback function, release the mapping *)
Definition ws2812_callback (s : ws2812_state) (tr : list event) : list event :=
  tr ++ [Call_dma_unmap_single (dev s) (dma_addr s)
           (C.to_u32 (num_leds s * BYTES_PER_LED))].

(** Issue a DMA to the PWM peripheral from the assigned buffer; [buf] is
    the offset of the argument [buffer] in [state->buffer]. *)
Definition issue_dma (pl : platform) (s : ws2812_state) (tr : list event)
    (buf : Z) (length : Z) : Z * ws2812_state * list event :=
  let size := C.to_u32 length in
  let region := take (Z.to_nat size) (drop (Z.to_nat buf) (buffer s)) in
  let s := set_dma_addr s (map_result pl) in
  let tr := tr ++ [Call_dma_map_single (dev s) region size (map_result pl)] in
  if dma_addr s =? 0 then
    (-1, s, tr ++ [Call_pr_err "Failed to map buffer for DMA"])
  else
    let tr := tr ++ [Call_prep_slave_single (dma_chan s) (dma_addr s) size
                       (prep_result pl)] in
    if negb (prep_result pl) then
      (-1, s, tr ++ [Call_pr_err "Failed to prep the DMA transfer"])
    else
      (0, s, tr ++ [Call_dmaengine_submit (dma_chan s) (dma_addr s) size;
                    Call_issue_pending (dma_chan s)]).

Definition clear_leds (pl : platform) (s : ws2812_state) (tr : list event)
  : option (Z * ws2812_state * list event) :=
  s ← C.for_loop (Z.to_nat (C.to_u32 (num_leds s * BYTES_PER_LED))) 0
        (fun i s => poke s i 0x88) s;
  s ← C.for_loop (Z.to_nat RESET_BYTES) 0
        (fun i s => poke s (C.to_u32 (num_leds s * BYTES_PER_LED + i)) 0) s;
  let '(_, s, tr) :=
    issue_dma pl s tr 0
      (C.to_int (C.to_u32 (num_leds s * BYTES_PER_LED + RESET_BYTES))) in
  Some (0, s, tr).

(** ** Write to the PWM through DMA *)

(** User memory starting at the [buf] argument of [write]: a byte that can
    be read, or [None] where the access faults. *)
Definition user_mem : Type := list (option Z).

Fixpoint readable_prefix (from : user_mem) (n : nat) : list Z :=
  match n, from with
  | S n', Some b :: from' => b :: readable_prefix from' n'
  | _, _ => []
  end.

(** [copy_from_user(state->pixbuf, from, n)]: copies up to the first byte
    that cannot be read and returns the number of bytes not copied. *)
Definition copy_from_user (s : ws2812_state) (from : user_mem) (n : Z)
  : Z * ws2812_state :=
  let got := readable_prefix from (Z.to_nat n) in
  (n - Z.of_nat (length got),
   set_pixbuf s (got ++ drop (length got) (pixbuf s))).

(** [*p_rgb] for [p_rgb] the word index [i] in [state->pixbuf] *)
Definition load_rgb (s : ws2812_state) (i : Z) : option Z :=
  C.load_int32 (pixbuf s) i.

(** [for(i = 0; i < num_leds; i++) p_buffer = led_encode(state, *p_rgb++, p_buffer);]
    with [n] rounds to go *)
Fixpoint encode_pixels (n : nat) (s : ws2812_state) (p_rgb p_buffer : Z)
  : option (ws2812_state * Z) :=
  match n with
  | O => Some (s, p_buffer)
  | S n' =>
      rgb ← load_rgb s p_rgb;
      '(s', p_buffer') ← led_encode s rgb p_buffer;
      encode_pixels n' s' (p_rgb + 1) p_buffer'
  end.

(** [memset(p, c, n)] for [p] the offset [off] in [state->buffer] *)
Definition memset (s : ws2812_state) (off : Z) (c : Z) (n : Z)
  : option ws2812_state :=
  C.for_loop (Z.to_nat n) off (fun i s => poke s i (C.to_uchar c)) s.

Definition ws2812_write (pl : platform) (s : ws2812_state) (tr : list event)
    (buf : user_mem) (count : Z) : option (Z * ws2812_state * list event) :=
  let num_leds_ := C.to_int (Z.min (count / 4) (num_leds s)) in
  let '(not_copied, s) := copy_from_user s buf (C.to_u32 (num_leds_ * 4)) in
  if negb (not_copied =? 0) then Some (- EFAULT, s, tr)
  else
    '(s, p_buffer) ← encode_pixels (Z.to_nat num_leds_) s 0 0;
    (* Fill rest with '0' *)
    s ← memset s p_buffer 0x00 RESET_BYTES;
    let length := C.to_int (p_buffer - 0 + RESET_BYTES) in
    (* Setup DMA engine *)
    let '(_, s, tr) := issue_dma pl s tr 0 length in
    Some (C.to_int count, s, tr).

(** ** Definitions used to state the properties *)

(** A list of integers in which no entry is smaller than the one before. *)
Fixpoint nondecreasing (l : list Z) : bool :=
  match l with
  | x :: (y :: _) as l' => (x <=? y) && nondecreasing l'
  | _ => true
  end.

(** The four PWM bytes: two protocol bits, each as the nibble 1000 or 1110. *)
Definition is_nibble_byte (x : Z) : Prop :=
  x = 0x88 \/ x = 0x8e \/ x = 0xe8 \/ x = 0xee.

(** The byte that [encode_step] stores for the two low bits of [r]. *)
Definition nibble (r : Z) : Z :=
  match Z.land r 3 with
  | 0 => 0x88
  | 1 => 0x8e
  | 2 => 0xe8
  | _ => 0xee
  end.

Fixpoint nibbles (n : nat) (r : Z) : list Z :=
  match n with
  | O => []
  | S n' => nibble r :: nibbles n' (Z.shiftr r 2)
  end.

Definition gamma_val (b v : Z) : Z := default 0 (gamma_ b v).

(** The twelve bytes of one pixel at brightness [b]. *)
Definition pixel_bytes (b rgb : Z) : list Z :=
  nibbles 12
    (gamma_val b (C.to_uchar (Z.shiftr rgb 8))
     + Z.shiftl (gamma_val b (C.to_uchar rgb)) 8
     + Z.shiftl (gamma_val b (C.to_uchar (Z.shiftr rgb 16))) 16).

(** The bytes of the [n] pixels staged in [pix] from word index [i] on. *)
Fixpoint frame_bytes (n : nat) (b : Z) (pix : list Z) (i : Z) : list Z :=
  match n with
  | O => []
  | S n' =>
      pixel_bytes b (default 0 (C.load_int32 pix i))
        ++ frame_bytes n' b pix (i + 1)
  end.

(** A strip of one LED after probe, a platform on which every DMA call
    succeeds, and one whose DMA engine hands out no descriptor. *)
Definition one_led : ws2812_state :=
  {| dev := 1; dma_chan := 2; dma_addr := 0;
     buffer := replicate 27 7; pixbuf := replicate 4 9;
     brightness := 255; invert := 0; num_leds := 1 |}.

(** The same strip with the brightness turned down to 0. *)
Definition one_led_dark : ws2812_state :=
  {| dev := 1; dma_chan := 2; dma_addr := 0;
     buffer := replicate 27 7; pixbuf := replicate 4 9;
     brightness := 0; invert := 0; num_leds := 1 |}.

(** A platform on which [dma_map_single] fails. *)
Definition dma_map_fails : platform :=
  {| map_result := 0; prep_result := true |}.

Definition dma_ok : platform := {| map_result := 4096; prep_result := true |}.

Definition dma_prep_fails : platform :=
  {| map_result := 4096; prep_result := false |}.

(** The [n] bytes of user memory at [from] can all be read. *)
Definition readable (from : user_mem) (n : nat) : Prop :=
  forall i : nat, (i < n)%nat -> exists b : Z, from !! i = Some (Some b).

(** The value a driver entry point returns, when it returns. *)
Definition ret_of (r : option (Z * ws2812_state * list event)) : option Z :=
  (fun x => x.1.1) <$> r.

(** No entry of the list, read from index [i] on, is above its index. *)
Fixpoint below_diagonal (i : Z) (l : list Z) : bool :=
  match l with
  | [] => true
  | x :: l' => (x <=? i) && below_diagonal (i + 1) l'
  end.

(** The two bits a PWM byte stands for, and the value a run of PWM bytes
    stands for (first byte lowest). *)
Definition unnibble (x : Z) : Z :=
  (if x =? 0xe8 then 2 else if x =? 0xee then 3 else
   if x =? 0x8e then 1 else 0).

Fixpoint unnibbles (l : list Z) : Z :=
  match l with
  | [] => 0
  | x :: l' => unnibble x + 4 * unnibbles l'
  end.

(** The four bytes of a 32-bit word in memory (little-endian). *)
Definition le_bytes (w : Z) : list Z :=
  [w mod 256; (w / 2 ^ 8) mod 256; (w / 2 ^ 16) mod 256; (w / 2 ^ 24) mod 256].

(** ** Functions to access the pwm peripheral *)

Definition PWM_CTL : Z := 0x0.
Definition PWM_STA : Z := 0x4.
Definition PWM_DMAC : Z := 0x8.
Definition PWM_RNG1 : Z := 0x10.
Definition PWM_DAT1 : Z := 0x14.
Definition PWM_FIFO1 : Z := 0x18.

(** [writel(val, state->ioaddr + reg)]: the register writes are recorded,
    in order, as pairs of address and 32-bit value. *)
Definition pwm_writel (ioaddr : Z) (io : list (Z * Z)) (val reg : Z)
  : list (Z * Z) :=
  io ++ [(ioaddr + reg, C.to_u32 val)].

(** Initialise the PWM module to use serial output mode *)
Definition pwm_init (s : ws2812_state) (ioaddr : Z) (io : list (Z * Z))
  : Z * list (Z * Z) :=
  (* serial 32 bits per word *)
  let io := pwm_writel ioaddr io 32 PWM_RNG1 in
  (* Clear *)
  let io := pwm_writel ioaddr io 0 PWM_DAT1 in
  let inv := if invert s =? 0 then 0 else 1 in
  let reg :=
    C.to_u32
      (Z.lor (Z.lor (Z.lor (Z.lor (Z.lor (Z.lor (Z.lor (Z.lor
         (Z.shiftl 1 0)            (* CH1EN *)
         (Z.shiftl 1 1))           (* serialiser *)
         (Z.shiftl 0 2))           (* don't repeat last word *)
         (Z.shiftl 0 3))           (* silence is zero *)
         (Z.shiftl inv 4))         (* polarity *)
         (Z.shiftl 1 5))           (* use fifo *)
         (Z.shiftl 1 6))           (* Clear fifo *)
         (Z.shiftl 1 7))           (* MSEN - Mask space enable *)
         (Z.shiftl inv 11))        (* Silence bit = 1 *) in
  let io := pwm_writel ioaddr io reg PWM_CTL in
  let reg :=
    C.to_u32
      (Z.lor (Z.lor
         (C.to_int (Z.shiftl 1 31))  (* DMA enabled *)
         (Z.shiftl 4 8))             (* Threshold for panic *)
         (Z.shiftl 8 0))             (* Threshold for dreq *) in
  let io := pwm_writel ioaddr io reg PWM_DMAC in
  (0, io).

(** ** Probe and remove

    The device as probe builds it: the driver state and the fields of
    [struct ws2812_state] that only probe, [pwm_init] and remove use. *)

Record ws2812_dev : Type := {
  core : ws2812_state;
  cl : Z;                (* struct class *cl *)
  ioaddr : Z;            (* void __iomem *ioaddr *)
  phys_addr : Z;
  led_en : Z
}.

Definition set_core (d : ws2812_dev) (s : ws2812_state) : ws2812_dev :=
  {| core := s; cl := cl d; ioaddr := ioaddr d; phys_addr := phys_addr d;
     led_en := led_en d |}.

(** The arrays probe allocates. *)
Inductive array : Type := A_pixbuf | A_buffer.

(** Calls into the kernel made by probe and remove, with what they
    returned. *)
Inductive kcall : Type :=
| K_pr_err (msg : string)
| K_kmalloc_state (ok : bool)
| K_kfree_state
| K_kmalloc (a : array) (size : Z) (ok : bool)
| K_kfree (a : array)
| K_alloc_chrdev_region (ret : Z)
| K_unregister_chrdev_region
| K_class_create (ret : Z)
| K_class_destroy (c : Z)
| K_device_create (c : Z) (ret : Z)
| K_device_destroy (c : Z)
| K_cdev_init
| K_cdev_add (ret : Z)
| K_cdev_del
| K_platform_set_drvdata (set : bool)
| K_of_property_read_u32 (name : string) (val : option Z)
| K_of_get_address (found : bool)
| K_platform_get_resource
| K_devm_ioremap_resource (ret : Z)
| K_dma_request_slave_channel (ret : Z)
| K_dmaengine_slave_config (chan : Z) (dst_addr : Z) (ret : Z)
| K_dma_release_channel (chan : Z)
| K_writel (addr : Z) (val : Z)
| K_devm_gpiod_get (ret : Z)
| K_dma (e : event).

(** What the platform answers to probe.  Memory from kmalloc is not
    initialised: the answer is [None] for NULL, or the contents found in
    the memory handed out. *)
Record probe_env : Type := {
  of_node : bool;                      (* dev->of_node != NULL *)
  state_mem : option ws2812_dev;
  chrdev_ret : Z;
  class_ptr : Z;
  device_ptr : Z;
  cdev_add_ret : Z;
  dt_invert : option Z;                (* property "rpi,invert" *)
  dt_num_leds : option Z;              (* property "rpi,num_leds" *)
  pixbuf_mem : option (nat -> Z);
  reg_cell : option (Z * Z * Z * Z);   (* the address cell, big-endian *)
  ioremap_ptr : Z;
  buffer_mem : option (nat -> Z);
  dma_chan_ptr : Z;
  slave_config_ret : Z;
  gpiod_ptr : Z;
  dma_answers : platform
}.

(** [kmalloc(size, GFP_KERNEL)] for an array of bytes *)
Definition kmalloc (mem : option (nat -> Z)) (size : Z) : option (list Z) :=
  (fun g => (fun i => C.to_uchar (g i)) <$> seq 0 (Z.to_nat size)) <$> mem.

Definition be32_to_cpup (cell : Z * Z * Z * Z) : Z :=
  let '(b0, b1, b2, b3) := cell in
  C.to_u32 (Z.shiftl b0 24 + Z.shiftl b1 16 + Z.shiftl b2 8 + b3).

(** [IS_ERR(ptr)]: the pointer lies in the last 4095 addresses *)
Definition IS_ERR (ptr : Z) : bool := 2 ^ 32 - 4095 <=? C.to_u32 ptr.

(** [of_property_read_u32(node, name, &field)]: the field is written only
    when the property is found. *)
Definition of_property_read_u32 (val : option Z) (field : Z) : Z :=
  match val with
  | Some v => C.to_u32 v
  | None => field
  end.

(** The labels at the end of probe: each falls through to the next. *)
Definition fail_malloc : list kcall := [K_kfree_state].
Definition fail_chrdev : list kcall := K_unregister_chrdev_region :: fail_malloc.
Definition fail_class (d : ws2812_dev) : list kcall :=
  K_class_destroy (cl d) :: fail_chrdev.
Definition fail_device (d : ws2812_dev) : list kcall :=
  K_device_destroy (cl d) :: fail_class d.
Definition fail_cdev (d : ws2812_dev) : list kcall :=
  K_cdev_del :: fail_device d.
Definition fail_pixbuf (d : ws2812_dev) : list kcall :=
  K_kfree A_pixbuf :: fail_cdev d.
Definition fail_buffer (d : ws2812_dev) : list kcall :=
  K_kfree A_buffer :: fail_pixbuf d.
Definition fail_dma_init (d : ws2812_dev) : list kcall :=
  K_dma_release_channel (dma_chan (core d)) :: fail_buffer d.

(** Probe function.  [pdev_dev] is [&pdev->dev]; the result is the return
    value, the state left registered (if any) and the calls made. *)
Definition ws2812_probe (env : probe_env) (pdev_dev : Z)
  : option (Z * option ws2812_dev * list kcall) :=
  if negb (of_node env) then
    Some (-1, None, [K_pr_err "Require device tree entry"])
  else
  match state_mem env with
  | None =>
      Some (-1, None, [K_kmalloc_state false; K_pr_err "Can't allocate state"])
  | Some d =>
  let tr := [K_kmalloc_state true] in
  let d :=
    set_core d
      {| dev := pdev_dev; dma_chan := dma_chan (core d);
         dma_addr := dma_addr (core d);
         buffer := buffer (core d); pixbuf := pixbuf (core d);
         brightness := 255; invert := invert (core d);
         num_leds := num_leds (core d) |} in
  (* Create character device interface /dev/ws2812 *)
  let tr := tr ++ [K_alloc_chrdev_region (chrdev_ret env)] in
  if chrdev_ret env <? 0 then
    Some (-1, None,
          tr ++ K_pr_err "Unable to create chrdev region" :: fail_malloc)
  else
  let d := {| core := core d; cl := class_ptr env; ioaddr := ioaddr d;
              phys_addr := phys_addr d; led_en := led_en d |} in
  let tr := tr ++ [K_class_create (class_ptr env)] in
  if cl d =? 0 then
    Some (-1, None,
          tr ++ K_unregister_chrdev_region
             :: K_pr_err "Unable to create class ws2812" :: fail_chrdev)
  else
  let tr := tr ++ [K_device_create (cl d) (device_ptr env)] in
  if device_ptr env =? 0 then
    Some (-1, None,
          tr ++ K_class_destroy (cl d) :: K_unregister_chrdev_region
             :: K_pr_err "Unable to create device ws2812" :: fail_class d)
  else
  let tr := tr ++ [K_cdev_init; K_cdev_add (cdev_add_ret env)] in
  if negb (cdev_add_ret env =? 0) then
    Some (-1, None, tr ++ K_pr_err "CDEV failed" :: fail_device d)
  else
  let tr := tr ++ [K_platform_set_drvdata true] in
  (* get parameters from device tree *)
  let d :=
    set_core d
      {| dev := dev (core d); dma_chan := dma_chan (core d);
         dma_addr := dma_addr (core d);
         buffer := buffer (core d); pixbuf := pixbuf (core d);
         brightness := brightness (core d);
         invert := of_property_read_u32 (dt_invert env) (invert (core d));
         num_leds :=
           of_property_read_u32 (dt_num_leds env) (num_leds (core d)) |} in
  let tr := tr ++ [K_of_property_read_u32 "rpi,invert" (dt_invert env);
                   K_of_property_read_u32 "rpi,num_leds" (dt_num_leds env)] in
  let size := C.to_u32 (num_leds (core d) * 4) in
  match kmalloc (pixbuf_mem env) size with
  | None =>
      Some (-1, None,
            tr ++ K_kmalloc A_pixbuf size false
               :: K_pr_err "Failed to allocate internal buffer" :: fail_cdev d)
  | Some p =>
  let d := set_core d (set_pixbuf (core d) p) in
  let tr := tr ++ [K_kmalloc A_pixbuf size true] in
  (* base address in dma-space *)
  match reg_cell env with
  | None =>
      Some (-1, None,
            tr ++ K_of_get_address false
               :: K_pr_err
                    "could not get DMA-register address - not using dma mode"
               :: fail_pixbuf d)
  | Some cell =>
  let d := {| core := core d; cl := cl d; ioaddr := ioremap_ptr env;
              phys_addr := be32_to_cpup cell; led_en := led_en d |} in
  let tr := tr ++ [K_of_get_address true; K_pr_err "bus_addr = %pa";
                   K_platform_get_resource;
                   K_devm_ioremap_resource (ioremap_ptr env)] in
  if IS_ERR (ioaddr d) then
    Some (-1, None,
          tr ++ K_pr_err "Failed to get register resource" :: fail_pixbuf d)
  else
  let tr := tr ++ [K_pr_err "ioaddr = 0x%x"] in
  let size :=
    C.to_u32 (num_leds (core d) * BYTES_PER_LED + RESET_BYTES) in
  match kmalloc (buffer_mem env) size with
  | None =>
      Some (-1, None,
            tr ++ K_kmalloc A_buffer size false
               :: K_pr_err "Failed to allocate internal buffer"
               :: fail_pixbuf d)
  | Some b =>
  let d := set_core d (set_buffer (core d) b) in
  let tr := tr ++ [K_kmalloc A_buffer size true] in
  let d :=
    set_core d
      {| dev := dev (core d); dma_chan := dma_chan_ptr env;
         dma_addr := dma_addr (core d);
         buffer := buffer (core d); pixbuf := pixbuf (core d);
         brightness := brightness (core d); invert := invert (core d);
         num_leds := num_leds (core d) |} in
  let tr := tr ++ [K_dma_request_slave_channel (dma_chan_ptr env)] in
  if dma_chan (core d) =? 0 then
    Some (-1, None,
          tr ++ K_pr_err "Failed to request DMA channel" :: fail_buffer d)
  else
  (* request a DMA channel *)
  let tr := tr ++ [K_dmaengine_slave_config (dma_chan (core d))
                     (phys_addr d + PWM_FIFO1) (slave_config_ret env)] in
  (* the test is on the channel pointer, as an address, not on what
     dmaengine_slave_config returned *)
  if C.to_u32 (dma_chan (core d)) <? 0 then
    Some (-1, None,
          tr ++ K_pr_err "Can't allocate DMA channel" :: fail_dma_init d)
  else
  let '(_, io) := pwm_init (core d) (ioaddr d) [] in
  let tr := tr ++ ((fun w => K_writel w.1 w.2) <$> io) in
  (* Enable the LED power *)
  let d := {| core := core d; cl := cl d; ioaddr := ioaddr d;
              phys_addr := phys_addr d; led_en := gpiod_ptr env |} in
  let tr := tr ++ [K_devm_gpiod_get (gpiod_ptr env)] in
  '(_, s, dma_tr) ← clear_leds (dma_answers env) (core d) [];
  Some (0, Some (set_core d s), tr ++ (K_dma <$> dma_tr))
  end end end end.

Definition ws2812_remove (d : ws2812_dev) : Z * list kcall :=
  (0, [K_platform_set_drvdata false;
       K_dma_release_channel (dma_chan (core d));
       K_kfree A_buffer;
       K_kfree A_pixbuf;
       K_cdev_del;
       K_device_destroy (cl d);
       K_class_destroy (cl d);
       K_unregister_chrdev_region;
       K_kfree_state]).

(** *** Resources held across the calls of a trace *)

Inductive resource : Type :=
| R_state | R_chrdev_region | R_class | R_device | R_cdev
| R_pixbuf | R_buffer | R_dma_chan.

Definition resource_eqb (r1 r2 : resource) : bool :=
  match r1, r2 with
  | R_state, R_state | R_chrdev_region, R_chrdev_region
  | R_class, R_class | R_device, R_device | R_cdev, R_cdev
  | R_pixbuf, R_pixbuf | R_buffer, R_buffer | R_dma_chan, R_dma_chan => true
  | _, _ => false
  end.

Definition resource_of (a : array) : resource :=
  match a with
  | A_pixbuf => R_pixbuf
  | A_buffer => R_buffer
  end.

(** The resource a call hands out, when it succeeds. *)
Definition acquired (e : kcall) : option resource :=
  match e with
  | K_kmalloc_state true => Some R_state
  | K_kmalloc a _ true => Some (resource_of a)
  | K_alloc_chrdev_region ret => if ret <? 0 then None else Some R_chrdev_region
  | K_class_create ret => if ret =? 0 then None else Some R_class
  | K_device_create _ ret => if ret =? 0 then None else Some R_device
  | K_cdev_add ret => if ret =? 0 then Some R_cdev else None
  | K_dma_request_slave_channel ret =>
      if ret =? 0 then None else Some R_dma_chan
  | _ => None
  end.

(** The resource a call gives back. *)
Definition released (e : kcall) : option resource :=
  match e with
  | K_kfree_state => Some R_state
  | K_kfree a => Some (resource_of a)
  | K_unregister_chrdev_region => Some R_chrdev_region
  | K_class_destroy _ => Some R_class
  | K_device_destroy _ => Some R_device
  | K_cdev_del => Some R_cdev
  | K_dma_release_channel _ => Some R_dma_chan
  | _ => None
  end.

Fixpoint take_out (r : resource) (held : list resource)
  : option (list resource) :=
  match held with
  | [] => None
  | r' :: held' =>
      if resource_eqb r r' then Some held'
      else (fun h => r' :: h) <$> take_out r held'
  end.

(** The resources held after a trace, starting from [held]; [None] when the
    trace gives back a resource that is not held at that point. *)
Fixpoint ledger (tr : list kcall) (held : list resource)
  : option (list resource) :=
  match tr with
  | [] => Some held
  | e :: tr' =>
      match released e with
      | Some r => held' ← take_out r held; ledger tr' held'
      | None =>
          match acquired e with
          | Some r => ledger tr' (r :: held)
          | None => ledger tr' held
          end
      end
  end.

(** How often a trace gives back the resource [r]. *)
Definition releases (r : resource) (tr : list kcall) : nat :=
  length
    (List.filter
       (fun e =>
          match released e with
          | Some r' => resource_eqb r r'
          | None => false
          end) tr).

(** A platform on which every call of probe succeeds, for a strip of two
    LEDs. *)
Definition blank_dev : ws2812_dev :=
  {| core := {| dev := 0; dma_chan := 0; dma_addr := 0; buffer := [];
                pixbuf := []; brightness := 0; invert := 0; num_leds := 0 |};
     cl := 0; ioaddr := 0; phys_addr := 0; led_en := 0 |}.

Definition env_ok : probe_env :=
  {| of_node := true; state_mem := Some blank_dev; chrdev_ret := 0;
     class_ptr := 0x1000; device_ptr := 0x2000; cdev_add_ret := 0;
     dt_invert := Some 0; dt_num_leds := Some 2;
     pixbuf_mem := Some (fun _ => 0x5a);
     reg_cell := Some (0x7e, 0x20, 0xc0, 0x00);
     ioremap_ptr := 0xf0000000; buffer_mem := Some (fun _ => 0xa5);
     dma_chan_ptr := 0x3000; slave_config_ret := 0; gpiod_ptr := 0x4000;
     dma_answers := dma_ok |}.

(** A pointer answer that is not NULL. *)
Definition present {A} (o : option A) : bool :=
  match o with
  | Some _ => true
  | None => false
  end.

(** Every call of probe that can make it fail succeeds. *)
Definition all_succeed (env : probe_env) : bool :=
  of_node env
  && present (state_mem env)
  && negb (chrdev_ret env <? 0)
  && negb (class_ptr env =? 0)
  && negb (device_ptr env =? 0)
  && (cdev_add_ret env =? 0)
  && present (pixbuf_mem env)
  && present (reg_cell env)
  && negb (IS_ERR (ioremap_ptr env))
  && present (buffer_mem env)
  && negb (dma_chan_ptr env =? 0).

(** [env_ok] with [class_create], [device_create], or the request for the
    DMA channel failing. *)
Definition env_no_class : probe_env :=
  {| of_node := true; state_mem := Some blank_dev; chrdev_ret := 0;
     class_ptr := 0; device_ptr := 0x2000; cdev_add_ret := 0;
     dt_invert := Some 0; dt_num_leds := Some 2;
     pixbuf_mem := Some (fun _ => 0x5a);
     reg_cell := Some (0x7e, 0x20, 0xc0, 0x00);
     ioremap_ptr := 0xf0000000; buffer_mem := Some (fun _ => 0xa5);
     dma_chan_ptr := 0x3000; slave_config_ret := 0; gpiod_ptr := 0x4000;
     dma_answers := dma_ok |}.


(** ** ASoC driver for the on-board sound (second part of the file) *)

Inductive dai : Type := cpu_dai | codec_dai.

(** Calls made by [snd_slice_hw_params] and [snd_slice_probe], with what
    they returned. *)
Inductive snd_call : Type :=
| S_log (msg : string)
| S_clk_disable_unprepare
| S_clk_set_rate (rate : Z) (ret : Z)
| S_clk_prepare_enable (ret : Z)
| S_set_sysclk (freq : Z) (ret : Z)
| S_set_fmt (d : dai) (ret : Z)
| S_set_bclk_ratio (d : dai) (ratio : Z)
| S_of_parse_phandle (found : bool)
| S_register_card (ret : Z)
| S_unregister_card
| S_devm_clk_get (ret : Z).

(** What the clock and ASoC frameworks answer. *)
Record snd_env : Type := {
  clk_set_rate_ret : Z;
  clk_prepare_enable_ret : Z;
  set_sysclk_ret : Z;
  cpu_fmt_ret : Z;
  codec_fmt_ret : Z;
  has_of_node : bool;
  has_i2s_node : bool;
  register_card_ret : Z;
  clk_get_ptr : Z
}.

(** The [switch (rate)] of [snd_slice_hw_params]: the system clock and the
    line logged, if any; [sysclk] starts as 12288000. *)
Definition sysclk_for_rate (rate : Z) : Z * option string :=
  let sysclk := 12288000 in
  match rate with
  | 32000 => (12288000, None)
  | 44100 => (11289600, None)
  | 48000 => (12288000, None)
  | 64000 => (12288000, None)
  | 88200 => (11289600, None)
  | 96000 => (12288000, None)
  | 128000 =>
      (sysclk,
       Some "Failed to set CS4265 SYSCLK, sample rate not supported in ALSA: 128000"%string)
  | 176400 => (11289600, None)
  | 192000 => (12288000, None)
  | _ =>
      (sysclk,
       Some "Failed to set CS4265 SYSCLK, sample rate not supported"%string)
  end.

Definition snd_slice_hw_params (env : snd_env) (rate : Z)
  : Z * list snd_call :=
  let '(sysclk, log) := sysclk_for_rate rate in
  let tr := match log with Some msg => [S_log msg] | None => [] end in
  let tr := tr ++ [S_clk_disable_unprepare] in
  let err := clk_set_rate_ret env in
  let tr := tr ++ [S_clk_set_rate sysclk err] in
  let tr :=
    if err <? 0 then tr ++ [S_log "Failed to set clock rate for gp0 clock"]
    else tr in
  let ret := clk_prepare_enable_ret env in
  let tr := tr ++ [S_clk_prepare_enable ret] in
  let tr := if ret <? 0 then tr ++ [S_log "Failed to enable clock"] else tr in
  let tr := tr ++ [S_log "Set sampling frequency %d, using sysclk %d"] in
  let tr := tr ++ [S_set_sysclk sysclk (set_sysclk_ret env)] in
  let ret := cpu_fmt_ret env in
  let tr := tr ++ [S_set_fmt cpu_dai ret] in
  if negb (ret =? 0) then
    (ret, tr ++ [S_log "Failed to set the cpu dai format."])
  else
  let ret := codec_fmt_ret env in
  let tr := tr ++ [S_set_fmt codec_dai ret] in
  if negb (ret =? 0) then
    (ret, tr ++ [S_log "Failed to set the codec format."])
  else
  (0, tr ++ [S_set_bclk_ratio cpu_dai 64]).

(** [PTR_ERR(ptr)]: the pointer as a [long] *)
Definition PTR_ERR (ptr : Z) : Z := C.to_int ptr.

Definition snd_slice_probe (env : snd_env) : Z * list snd_call :=
  let tr :=
    if has_of_node env then [S_of_parse_phandle (has_i2s_node env)]
    else [S_log "SLICEAUDIO - ERROR no Device Tree!"] in
  let ret := register_card_ret env in
  let tr := tr ++ [S_register_card ret] in
  if negb (ret =? 0) then
    (ret, tr ++ [S_log "snd_soc_register_card() failed: %d"])
  else
  let tr := tr ++ [S_devm_clk_get (clk_get_ptr env)] in
  if IS_ERR (clk_get_ptr env) then
    (PTR_ERR (clk_get_ptr env), tr ++ [S_log "Failed to get gp0 clock"])
  else
  let ret := clk_set_rate_ret env in
  let tr := tr ++ [S_clk_set_rate 12288000 ret] in
  if negb (ret =? 0) then
    (ret, tr ++ [S_log "Failed to set the GP0 clock rate"])
  else
  let ret := clk_prepare_enable_ret env in
  let tr := tr ++ [S_clk_prepare_enable ret] in
  if negb (ret =? 0) then
    (ret, tr ++ [S_log "Failed to turn on gp0 clock: %d"])
  else
  (0, tr).

(** The sample rates the [switch] of [snd_slice_hw_params] names. *)
Definition named_rates : list Z :=
  [32000; 44100; 48000; 64000; 88200; 96000; 128000; 176400; 192000].

(** Answers with a clock that cannot be set and a codec that refuses the
    format. *)
Definition snd_env_codec_refuses : snd_env :=
  {| clk_set_rate_ret := -22; clk_prepare_enable_ret := -5;
     set_sysclk_ret := -22; cpu_fmt_ret := 0; codec_fmt_ret := -22;
     has_of_node := true; has_i2s_node := true; register_card_ret := 0;
     clk_get_ptr := 0x5000 |}.

(** * Properties *)

(** ** C conversions that do nothing on values in range *)

Lemma to_int_id (x : Z) : - 2 ^ 31 <= x < 2 ^ 31 -> C.to_int x = x.
Proof.
  intros H. unfold C.to_int.
  rewrite Z.mod_small by lia. lia.
Qed.

Lemma to_u32_id (x : Z) : 0 <= x < 2 ^ 32 -> C.to_u32 x = x.
Proof. intros H. unfold C.to_u32. apply Z.mod_small. lia. Qed.

Lemma to_uchar_id (x : Z) : 0 <= x < 256 -> C.to_uchar x = x.
Proof. intros H. unfold C.to_uchar. apply Z.mod_small. lia. Qed.

Lemma to_uchar_range (x : Z) : 0 <= C.to_uchar x <= 255.
Proof. unfold C.to_uchar. pose proof (Z.mod_pos_bound x 256). lia. Qed.

Lemma index_Some {A} (a : list A) (i : Z) :
  0 <= i < Z.of_nat (length a) -> is_Some (C.index a i).
Proof.
  intros H. unfold C.index.
  destruct (Z.ltb_spec i 0); [lia|].
  apply lookup_lt_is_Some. lia.
Qed.

Lemma index_lookup {A} (a : list A) (i : Z) :
  0 <= i -> C.index a i = a !! Z.to_nat i.
Proof. intros H. unfold C.index. destruct (Z.ltb_spec i 0); [lia|done]. Qed.

(** ** The gamma table *)

Lemma GammaE_length : length GammaE = 256%nat.
Proof. reflexivity. Qed.

Lemma GammaE_bytes : Forall (fun x => 0 <= x < 256) GammaE.
Proof. apply (bool_decide_unpack _). by vm_compute. Qed.

Lemma nondecreasing_head (l : list Z) (x y : Z) (j : nat) :
  nondecreasing (x :: l) = true -> (x :: l) !! j = Some y -> x <= y.
Proof.
  revert x j. induction l as [|z l IH]; intros x j Hs Hj.
  - destruct j as [|j]; simpl in Hj; [|done]. injection Hj as <-. lia.
  - destruct j as [|j]; simpl in Hj.
    + injection Hj as <-. lia.
    + cbn [nondecreasing] in Hs. apply andb_prop in Hs as [Hxz Hs].
      apply Z.leb_le in Hxz.
      specialize (IH z j Hs Hj). lia.
Qed.

Lemma nondecreasing_lookup (l : list Z) (i j : nat) (x y : Z) :
  nondecreasing l = true -> (i <= j)%nat ->
  l !! i = Some x -> l !! j = Some y -> x <= y.
Proof.
  revert i j. induction l as [|z l IH]; intros i j Hs Hij Hi Hj; [done|].
  destruct i as [|i].
  - simpl in Hi. injection Hi as <-. eapply nondecreasing_head; eauto.
  - destruct j as [|j]; [lia|]. simpl in Hi, Hj.
    apply (IH i j); [|lia|done..].
    destruct l as [|w l]; [done|].
    cbn [nondecreasing] in Hs. apply andb_prop in Hs as [_ Hs]. exact Hs.
Qed.

Lemma GammaE_nondecreasing : nondecreasing GammaE = true.
Proof. by vm_compute. Qed.

(** ** [gamma_] *)

Lemma gamma_scaled (b v : Z) :
  0 <= b <= 255 -> 0 <= v <= 255 ->
  Z.quot (C.to_int (v * b)) 255 = v * b / 255 /\ 0 <= v * b / 255 <= 255.
Proof.
  intros Hb Hv.
  assert (0 <= v * b <= 255 * 255) by nia.
  rewrite to_int_id by lia.
  rewrite Z.quot_div_nonneg by lia.
  split; [done|].
  split; [apply Z.div_pos; lia|].
  apply Z.div_le_upper_bound; lia.
Qed.

Lemma gamma_lookup (b v : Z) :
  0 <= b <= 255 -> 0 <= v <= 255 ->
  gamma_ b v = GammaE !! Z.to_nat (v * b / 255).
Proof.
  intros Hb Hv. unfold gamma_.
  destruct (gamma_scaled b v Hb Hv) as [-> Hr].
  rewrite index_lookup by lia.
  destruct (GammaE !! Z.to_nat (v * b / 255)) as [g|] eqn:Hg; [|done].
  simpl. f_equal. apply to_uchar_id.
  exact (proj1 (Forall_lookup _ _) GammaE_bytes _ _ Hg).
Qed.

Lemma gamma_Some (b v : Z) :
  0 <= b <= 255 -> 0 <= v <= 255 ->
  exists g, gamma_ b v = Some g /\ 0 <= g <= 255.
Proof.
  intros Hb Hv. rewrite gamma_lookup by done.
  destruct (gamma_scaled b v Hb Hv) as [_ Hr].
  destruct (lookup_lt_is_Some_2 GammaE (Z.to_nat (v * b / 255))) as [g Hg].
  { rewrite GammaE_length. lia. }
  exists g. split; [done|].
  pose proof (proj1 (Forall_lookup _ _) GammaE_bytes _ _ Hg) as Hg'.
  simpl in Hg'. lia.
Qed.

Lemma gamma_brightness_zero_channel (b : Z) :
  0 <= b <= 255 -> gamma_val b 0 = 0 /\ gamma_ b 0 = Some 0.
Proof.
  intros Hb. unfold gamma_val.
  rewrite gamma_lookup by lia. split; reflexivity.
Qed.

(** C10: the gamma lookup is total and in bounds.  For every brightness [b]
    and channel value [v] in 0..255 the index computed by [gamma_],
    [(v * b) / 255], lies in 0..255, the access to the 256-entry table is
    inside the table, and [gamma_] returns a value. *)
Theorem gamma_in_bounds (b v : Z) :
  0 <= b <= 255 -> 0 <= v <= 255 ->
  0 <= Z.quot (C.to_int (v * b)) 255 <= 255 /\
  length GammaE = 256%nat /\
  is_Some (C.index GammaE (Z.quot (C.to_int (v * b)) 255)) /\
  is_Some (gamma_ b v).
Proof.
  intros Hb Hv.
  destruct (gamma_scaled b v Hb Hv) as [Hq Hr].
  split; [lia|]. split; [reflexivity|]. split.
  - apply index_Some. rewrite GammaE_length. lia.
  - destruct (gamma_Some b v Hb Hv) as [g [Hg _]]. by exists g.
Qed.

Lemma gamma_in_bounds_witness :
  0 <= Z.quot (C.to_int (255 * 255)) 255 <= 255 /\
  length GammaE = 256%nat /\
  is_Some (C.index GammaE (Z.quot (C.to_int (255 * 255)) 255)) /\
  is_Some (gamma_ 255 255).
Proof. apply (gamma_in_bounds 255 255); lia. Defined.

(** C4: for every brightness [b] and channel value [c] in 0..255, [gamma_]
    returns the entry of the gamma table at index [(c * b) / 255]
    (truncating division); at brightness 255 this is the entry at index
    [c], and at brightness 0 the result is 0 for every [c]. *)
Theorem gamma_brightness_scaling (b c : Z) :
  0 <= b <= 255 -> 0 <= c <= 255 ->
  gamma_ b c = C.index GammaE (c * b / 255) /\
  gamma_ 255 c = C.index GammaE c /\
  gamma_ 0 c = Some 0.
Proof.
  intros Hb Hc.
  destruct (gamma_scaled b c Hb Hc) as [_ Hr].
  split; [|split].
  - rewrite gamma_lookup, index_lookup by lia. done.
  - rewrite gamma_lookup, index_lookup by lia.
    rewrite Z.div_mul by lia. done.
  - rewrite gamma_lookup by lia.
    rewrite Z.mul_0_r. reflexivity.
Qed.

Lemma gamma_brightness_scaling_witness :
  gamma_ 128 200 = C.index GammaE (200 * 128 / 255) /\
  gamma_ 255 200 = C.index GammaE 200 /\
  gamma_ 0 200 = Some 0.
Proof. apply (gamma_brightness_scaling 128 200); lia. Defined.

(** C8: the gamma table is non-decreasing, and for every fixed brightness
    [b] and channel values [c <= c'] in 0..255, [gamma_ b c] is at most
    [gamma_ b c']. *)
Theorem gamma_monotone (b c c' : Z) :
  0 <= b <= 255 -> 0 <= c -> c <= c' -> c' <= 255 ->
  (forall (i j : nat) (x y : Z),
      (i <= j)%nat -> GammaE !! i = Some x -> GammaE !! j = Some y -> x <= y) /\
  exists g g' : Z, gamma_ b c = Some g /\ gamma_ b c' = Some g' /\ g <= g'.
Proof.
  intros Hb Hc Hcc Hc'.
  split.
  { intros i j x y. apply nondecreasing_lookup, GammaE_nondecreasing. }
  destruct (gamma_Some b c) as [g [Hg _]]; [lia..|].
  destruct (gamma_Some b c') as [g' [Hg' _]]; [lia..|].
  exists g, g'. split; [done|]. split; [done|].
  rewrite gamma_lookup in Hg, Hg' by lia.
  assert (0 <= c * b / 255) by (apply Z.div_pos; nia).
  assert (c * b / 255 <= c' * b / 255) by (apply Z.div_le_mono; nia).
  eapply (nondecreasing_lookup GammaE); [apply GammaE_nondecreasing| |done..].
  lia.
Qed.

Lemma gamma_monotone_witness :
  (forall (i j : nat) (x y : Z),
      (i <= j)%nat -> GammaE !! i = Some x -> GammaE !! j = Some y -> x <= y) /\
  exists g g' : Z, gamma_ 100 17 = Some g /\ gamma_ 100 240 = Some g' /\ g <= g'.
Proof. apply (gamma_monotone 100 17 240); lia. Defined.

(** ** Stores into [state->buffer] *)

Lemma set_buffer_twice (s : ws2812_state) (b1 b2 : list Z) :
  set_buffer (set_buffer s b1) b2 = set_buffer s b2.
Proof. reflexivity. Qed.

Lemma set_buffer_same (s : ws2812_state) : set_buffer s (buffer s) = s.
Proof. by destruct s. Qed.

Lemma poke_in (s : ws2812_state) (off v : Z) :
  0 <= off < Z.of_nat (length (buffer s)) ->
  poke s off v = Some (set_buffer s (<[Z.to_nat off := v]> (buffer s))).
Proof.
  intros H. unfold poke, C.store.
  destruct (Z.leb_spec 0 off); [|lia].
  destruct (Z.ltb_spec off (Z.of_nat (length (buffer s)))); [|lia].
  reflexivity.
Qed.

(** Storing [y] at [i] and then [k] from [i + 1] on is storing [y :: k]
    from [i] on. *)
Lemma inserts_after_insert (l k : list Z) (i : nat) (y : Z) :
  list_inserts (S i) k (<[i := y]> l) = list_inserts i (y :: k) l.
Proof. simpl. symmetry. apply list_insert_inserts_lt. lia. Qed.

(** A loop whose round [j] stores [v] at [off + j] fills a run of the
    buffer with [v]. *)
Lemma for_loop_fill (n : nat) (body : Z -> ws2812_state -> option ws2812_state)
    (off v : Z) :
  forall (i : Z) (s : ws2812_state),
  (forall j s', i <= j < i + Z.of_nat n -> num_leds s' = num_leds s ->
                body j s' = poke s' (off + j) v) ->
  0 <= off + i -> off + i + Z.of_nat n <= Z.of_nat (length (buffer s)) ->
  C.for_loop n i body s
  = Some (set_buffer s
            (list_inserts (Z.to_nat (off + i)) (replicate n v) (buffer s))).
Proof.
  induction n as [|n IH]; intros i s Hbody Hlo Hhi.
  - simpl. by rewrite set_buffer_same.
  - cbn [C.for_loop].
    rewrite Hbody by lia. rewrite poke_in by lia. cbn [mbind option_bind].
    rewrite IH; cbn [buffer set_buffer num_leds].
    + rewrite set_buffer_twice. do 2 f_equal.
      replace (Z.to_nat (off + (i + 1))) with (S (Z.to_nat (off + i))) by lia.
      apply inserts_after_insert.
    + intros j s' Hj Hs'. apply Hbody; [lia|done].
    + lia.
    + rewrite length_insert. lia.
Qed.

(** ** The nibble encoder *)

Lemma land_3_cases (r : Z) :
  Z.land r 3 = 0 \/ Z.land r 3 = 1 \/ Z.land r 3 = 2 \/ Z.land r 3 = 3.
Proof.
  assert (Z.land r 3 = r mod 2 ^ 2) as ->
    by (apply (Z.land_ones r 2); lia).
  pose proof (Z.mod_pos_bound r (2 ^ 2)). lia.
Qed.

Lemma nibble_is_nibble_byte (r : Z) : is_nibble_byte (nibble r).
Proof.
  unfold nibble, is_nibble_byte.
  destruct (land_3_cases r) as [-> | [-> | [-> | ->]]]; auto.
Qed.

Lemma nibbles_length (n : nat) (r : Z) : length (nibbles n r) = n.
Proof. revert r. induction n; intros r; simpl; auto. Qed.

Lemma nibbles_are_nibble_bytes (n : nat) (r : Z) :
  Forall is_nibble_byte (nibbles n r).
Proof.
  revert r. induction n; intros r; simpl; constructor;
    auto using nibble_is_nibble_byte.
Qed.

Lemma encode_step_in (s : ws2812_state) (r buf : Z) :
  0 <= buf < Z.of_nat (length (buffer s)) ->
  encode_step s r buf
  = Some (set_buffer s (<[Z.to_nat buf := nibble r]> (buffer s)), buf + 1).
Proof.
  intros H. unfold encode_step, nibble.
  destruct (land_3_cases r) as [-> | [-> | [-> | ->]]];
    rewrite poke_in by done; reflexivity.
Qed.

Lemma led_encode_loop_spec (n : nat) :
  forall (s : ws2812_state) (r buf : Z),
  0 <= buf -> buf + Z.of_nat n <= Z.of_nat (length (buffer s)) ->
  led_encode_loop n s r buf
  = Some (set_buffer s (list_inserts (Z.to_nat buf) (nibbles n r) (buffer s)),
          buf + Z.of_nat n).
Proof.
  induction n as [|n IH]; intros s r buf Hlo Hhi.
  - simpl. rewrite set_buffer_same. do 2 f_equal. lia.
  - cbn [led_encode_loop nibbles].
    rewrite encode_step_in by lia. cbn [mbind option_bind].
    rewrite IH; cbn [buffer set_buffer].
    + rewrite set_buffer_twice. f_equal. f_equal; [|lia]. f_equal.
      replace (Z.to_nat (buf + 1)) with (S (Z.to_nat buf)) by lia.
      apply inserts_after_insert.
    + lia.
    + rewrite length_insert. lia.
Qed.

Lemma pixel_bytes_length (b rgb : Z) : length (pixel_bytes b rgb) = 12%nat.
Proof. apply nibbles_length. Qed.

Lemma pixel_bytes_are_nibble_bytes (b rgb : Z) :
  Forall is_nibble_byte (pixel_bytes b rgb).
Proof. apply nibbles_are_nibble_bytes. Qed.

Lemma gamma_val_Some (b v : Z) :
  0 <= b <= 255 -> 0 <= v <= 255 ->
  gamma_ b v = Some (gamma_val b v) /\ 0 <= gamma_val b v <= 255.
Proof.
  intros Hb Hv. unfold gamma_val.
  destruct (gamma_Some b v Hb Hv) as [g [-> Hg]]. done.
Qed.

Lemma led_encode_spec (s : ws2812_state) (rgb buf : Z) :
  0 <= brightness s <= 255 ->
  0 <= buf -> buf + 12 <= Z.of_nat (length (buffer s)) ->
  led_encode s rgb buf
  = Some (set_buffer s
            (list_inserts (Z.to_nat buf) (pixel_bytes (brightness s) rgb)
               (buffer s)),
          buf + 12).
Proof.
  intros Hb Hlo Hhi. unfold led_encode, pixel_bytes.
  destruct (gamma_val_Some (brightness s) (C.to_uchar (Z.shiftr rgb 8)) Hb
              (to_uchar_range _)) as [-> Hred].
  destruct (gamma_val_Some (brightness s) (C.to_uchar rgb) Hb
              (to_uchar_range _)) as [-> Hblu].
  destruct (gamma_val_Some (brightness s) (C.to_uchar (Z.shiftr rgb 16)) Hb
              (to_uchar_range _)) as [-> Hgrn].
  cbn [mbind option_bind].
  rewrite to_int_id.
  - rewrite led_encode_loop_spec by (simpl; lia). reflexivity.
  - rewrite !Z.shiftl_mul_pow2 by lia. lia.
Qed.

(** C1: for every pixel word and every brightness value, one call to
    [led_encode] with room for twelve bytes at the cursor stores exactly
    twelve bytes there, each of them one of 0x88, 0x8E, 0xE8, 0xEE, leaves
    the rest of the buffer as it was, and returns the cursor advanced by
    twelve. *)
Theorem led_encode_twelve_bytes (s : ws2812_state) (rgb buf : Z) :
  0 <= brightness s <= 255 ->
  0 <= buf -> buf + 12 <= Z.of_nat (length (buffer s)) ->
  exists (s' : ws2812_state) (bytes : list Z),
    led_encode s rgb buf = Some (s', buf + 12) /\
    length bytes = 12%nat /\
    Forall is_nibble_byte bytes /\
    buffer s' =
      take (Z.to_nat buf) (buffer s) ++ bytes
        ++ drop (Z.to_nat buf + 12) (buffer s) /\
    s' = set_buffer s (buffer s').
Proof.
  intros Hb Hlo Hhi.
  eexists _, (pixel_bytes (brightness s) rgb).
  split; [apply led_encode_spec; done|].
  split; [apply pixel_bytes_length|].
  split; [apply pixel_bytes_are_nibble_bytes|].
  split; [|reflexivity].
  cbn [buffer set_buffer].
  rewrite <- (take_drop (Z.to_nat buf) (buffer s)) at 1.
  assert (length (take (Z.to_nat buf) (buffer s)) = Z.to_nat buf) as Hlen
    by (rewrite length_take; lia).
  rewrite <- Hlen at 1.
  rewrite <- (Nat.add_0_r (length _)), list_inserts_app_r. f_equal.
  rewrite <- (take_drop 12 (drop (Z.to_nat buf) (buffer s))).
  rewrite list_inserts_0_r.
  - by rewrite drop_drop.
  - rewrite pixel_bytes_length, length_take, length_drop. lia.
Qed.

Lemma led_encode_twelve_bytes_witness :
  exists (s' : ws2812_state) (bytes : list Z),
    led_encode one_led 0xff0000 0 = Some (s', 0 + 12) /\
    length bytes = 12%nat /\
    Forall is_nibble_byte bytes /\
    buffer s' = take (Z.to_nat 0) (buffer one_led) ++ bytes
                  ++ drop (Z.to_nat 0 + 12) (buffer one_led) /\
    s' = set_buffer one_led (buffer s').
Proof. apply (led_encode_twelve_bytes one_led 0xff0000 0); simpl; lia. Defined.

(** ** Frames *)

Lemma load_int32_Some (a : list Z) (i : Z) :
  0 <= i -> 4 * i + 4 <= Z.of_nat (length a) ->
  C.load_int32 a i = Some (default 0 (C.load_int32 a i)).
Proof.
  intros Hlo Hhi. unfold C.load_int32.
  destruct (index_Some a (4 * i)) as [b0 ->]; [lia|].
  destruct (index_Some a (4 * i + 1)) as [b1 ->]; [lia|].
  destruct (index_Some a (4 * i + 2)) as [b2 ->]; [lia|].
  destruct (index_Some a (4 * i + 3)) as [b3 ->]; [lia|].
  reflexivity.
Qed.

Lemma frame_bytes_length (n : nat) (b : Z) (pix : list Z) (i : Z) :
  length (frame_bytes n b pix i) = (12 * n)%nat.
Proof.
  revert i. induction n as [|n IH]; intros i; [done|].
  cbn [frame_bytes]. rewrite length_app, pixel_bytes_length, IH. lia.
Qed.

Lemma frame_bytes_are_nibble_bytes (n : nat) (b : Z) (pix : list Z) (i : Z) :
  Forall is_nibble_byte (frame_bytes n b pix i).
Proof.
  revert i. induction n as [|n IH]; intros i; cbn [frame_bytes].
  - constructor.
  - apply Forall_app. split; [apply pixel_bytes_are_nibble_bytes | apply IH].
Qed.

Lemma encode_pixels_spec (n : nat) :
  forall (s : ws2812_state) (p_rgb p_buffer : Z),
  0 <= brightness s <= 255 ->
  0 <= p_rgb -> 4 * (p_rgb + Z.of_nat n) <= Z.of_nat (length (pixbuf s)) ->
  0 <= p_buffer ->
  p_buffer + 12 * Z.of_nat n <= Z.of_nat (length (buffer s)) ->
  encode_pixels n s p_rgb p_buffer
  = Some (set_buffer s
            (list_inserts (Z.to_nat p_buffer)
               (frame_bytes n (brightness s) (pixbuf s) p_rgb) (buffer s)),
          p_buffer + 12 * Z.of_nat n).
Proof.
  induction n as [|n IH]; intros s p_rgb p_buffer Hb Hr Hpix Hlo Hhi.
  - simpl. rewrite set_buffer_same. do 2 f_equal. lia.
  - cbn [encode_pixels frame_bytes]. unfold load_rgb.
    rewrite load_int32_Some by lia. cbn [mbind option_bind].
    rewrite led_encode_spec by lia. cbn [mbind option_bind].
    rewrite IH; cbn [buffer set_buffer brightness pixbuf];
      rewrite ?length_inserts; try lia.
    rewrite set_buffer_twice. f_equal. f_equal; [|lia]. f_equal.
    rewrite list_inserts_app_l, pixel_bytes_length. f_equal. lia.
Qed.

(** Overwriting a buffer from its start with [f], then with [z] right after
    [f], leaves [f], [z] and the rest of the buffer. *)
Lemma inserts_frame_then_tail (f z l : list Z) :
  (length f + length z <= length l)%nat ->
  list_inserts (length f) z (list_inserts 0 f l)
  = f ++ z ++ drop (length f + length z) l.
Proof.
  intros Hlen.
  rewrite <- (take_drop (length f) l) at 1.
  rewrite list_inserts_0_r by (rewrite length_take; lia).
  rewrite <- (Nat.add_0_r (length f)) at 1.
  rewrite list_inserts_app_r. f_equal.
  rewrite <- (take_drop (length z) (drop (length f) l)) at 1.
  rewrite list_inserts_0_r by (rewrite length_take, length_drop; lia).
  by rewrite drop_drop.
Qed.

(** ** [copy_from_user] *)

Lemma readable_prefix_length_le (from : user_mem) (n : nat) :
  (length (readable_prefix from n) <= n)%nat.
Proof.
  revert from. induction n as [|n IH]; intros from.
  - destruct from; simpl; lia.
  - destruct from as [|[b|] from]; simpl; [lia| |lia].
    specialize (IH from). lia.
Qed.

Lemma readable_prefix_full (from : user_mem) (n : nat) :
  readable from n <-> length (readable_prefix from n) = n.
Proof.
  revert from. induction n as [|n IH]; intros from.
  - split; [by destruct from|]. intros _ i Hi. lia.
  - destruct from as [|[b|] from]; simpl.
    + split; [|done]. intros H. destruct (H 0%nat) as [b Hb]; [lia|done].
    + rewrite Nat.succ_inj_wd, <- IH. split.
      * intros H i Hi. apply (H (S i)). lia.
      * intros H [|i] Hi; [by exists b|]. apply H. lia.
    + split; [|done]. intros H. destruct (H 0%nat) as [b Hb]; [lia|done].
Qed.

Lemma copy_from_user_result (s : ws2812_state) (from : user_mem) (n : Z) :
  0 <= n ->
  (copy_from_user s from n).1 = 0 <-> readable from (Z.to_nat n).
Proof.
  intros Hn. unfold copy_from_user. cbn [fst].
  rewrite readable_prefix_full. lia.
Qed.

Lemma copy_from_user_state (s : ws2812_state) (from : user_mem) (n : Z) :
  let s' := (copy_from_user s from n).2 in
  buffer s' = buffer s /\ brightness s' = brightness s /\
  num_leds s' = num_leds s /\ dev s' = dev s /\ dma_addr s' = dma_addr s /\
  (n <= Z.of_nat (length (pixbuf s)) -> length (pixbuf s') = length (pixbuf s)).
Proof.
  cbn. repeat split; try reflexivity.
  intros Hn. rewrite length_app, length_drop.
  pose proof (readable_prefix_length_le from (Z.to_nat n)). lia.
Qed.

(** ** [issue_dma] *)

Lemma issue_dma_trace (pl : platform) (s : ws2812_state) (tr : list event)
    (buf len : Z) :
  exists (ret : Z) (rest : list event),
    issue_dma pl s tr buf len
    = (ret, set_dma_addr s (map_result pl),
       tr ++ Call_dma_map_single (dev s)
               (take (Z.to_nat (C.to_u32 len))
                  (drop (Z.to_nat buf) (buffer s)))
               (C.to_u32 len) (map_result pl) :: rest).
Proof.
  unfold issue_dma. cbn [dev dma_addr dma_chan set_dma_addr].
  destruct (map_result pl =? 0); [|destruct (prep_result pl); cbn [negb]];
    rewrite <- ?app_assoc; eexists _, _; reflexivity.
Qed.

(** ** [ws2812_write] *)

Lemma consts : BYTES_PER_LED = 12 /\ RESET_BYTES = 15 /\ C.INT_MAX = 2147483647.
Proof. repeat split. Qed.

Lemma ws2812_write_fault (pl : platform) (s : ws2812_state) (tr : list event)
    (buf : user_mem) (count : Z) :
  state_wf s -> 0 <= count < 2 ^ 32 ->
  ~ readable buf (Z.to_nat (4 * Z.min (count / 4) (num_leds s))) ->
  ws2812_write pl s tr buf count
  = Some (- EFAULT,
          (copy_from_user s buf (4 * Z.min (count / 4) (num_leds s))).2, tr).
Proof.
  intros [Hb Hn Hfit Hbuf Hpix] Hcount Hread.
  destruct consts as (HB & HR & HI). rewrite HB, HR, HI in *.
  unfold ws2812_write.
  set (k := Z.min (count / 4) (num_leds s)) in *.
  assert (0 <= k <= num_leds s).
  { subst k. pose proof (Z.div_pos count 4). lia. }
  rewrite (to_int_id k) by lia.
  rewrite to_u32_id by lia.
  replace (k * 4) with (4 * k) by lia.
  pose proof (copy_from_user_result s buf (4 * k)) as Hres.
  destruct (copy_from_user s buf (4 * k)) as [nc s1]. cbn [fst snd] in *.
  destruct (Z.eqb_spec nc 0) as [Hz|Hz]; [|reflexivity].
  exfalso. apply Hread, Hres; [lia|done].
Qed.

Lemma ws2812_write_ok (pl : platform) (s : ws2812_state) (tr : list event)
    (buf : user_mem) (count : Z) :
  state_wf s -> 0 <= count < 2 ^ 32 ->
  let k := Z.min (count / 4) (num_leds s) in
  readable buf (Z.to_nat (4 * k)) ->
  let s1 := (copy_from_user s buf (4 * k)).2 in
  let frame :=
    frame_bytes (Z.to_nat k) (brightness s) (pixbuf s1) 0
      ++ replicate (Z.to_nat RESET_BYTES) 0 in
  ws2812_write pl s tr buf count
  = (let '(_, s', tr') :=
       issue_dma pl (set_buffer s1 (frame ++ drop (length frame) (buffer s)))
         tr 0 (k * BYTES_PER_LED + RESET_BYTES) in
     Some (C.to_int count, s', tr')).
Proof.
  intros [Hb Hn Hfit Hbuf Hpix] Hcount k Hread s1 frame.
  destruct consts as (HB & HR & HI). rewrite HB, HR, HI in *.
  unfold ws2812_write. fold k.
  assert (0 <= k <= num_leds s).
  { subst k. pose proof (Z.div_pos count 4). lia. }
  rewrite (to_int_id k) by lia.
  rewrite to_u32_id by lia.
  replace (k * 4) with (4 * k) by lia.
  pose proof (copy_from_user_result s buf (4 * k)) as Hres.
  pose proof (copy_from_user_state s buf (4 * k)) as Hst.
  subst frame s1.
  destruct (copy_from_user s buf (4 * k)) as [nc s1]. cbn [fst snd] in *.
  destruct Hst as (Hbuf1 & Hb1 & Hn1 & _ & _ & Hpix1).
  specialize (Hpix1 ltac:(lia)).
  assert (length (buffer s1) = length (buffer s)) as Hlen1 by congruence.
  destruct (Z.eqb_spec nc 0) as [Hz|Hz]; [|exfalso; apply Hz, Hres; [lia|done]].
  cbn [negb]. rewrite HR.
  rewrite encode_pixels_spec by lia. cbn [mbind option_bind].
  unfold memset.
  rewrite (for_loop_fill _ _ 0 (C.to_uchar 0));
    cbn [buffer set_buffer num_leds]; rewrite ?length_inserts; try lia.
  2: { intros j s' _ _. by rewrite Z.add_0_l. }
  rewrite set_buffer_twice. cbn [mbind option_bind].
  rewrite to_int_id by lia.
  replace (0 + 12 * Z.of_nat (Z.to_nat k) - 0 + 15) with (k * 12 + 15) by lia.
  rewrite Hb1.
  set (f := frame_bytes (Z.to_nat k) (brightness s) (pixbuf s1) 0).
  assert (length f = (12 * Z.to_nat k)%nat) as Hf by apply frame_bytes_length.
  replace (Z.to_nat (0 + (0 + 12 * Z.of_nat (Z.to_nat k)))) with (length f)
    by lia.
  change (Z.to_nat 0) with 0%nat. change (C.to_uchar 0) with 0.
  rewrite inserts_frame_then_tail by (rewrite length_replicate; lia).
  rewrite <- length_app, <- app_assoc, Hbuf1. reflexivity.
Qed.

(** C2: a write of [count] bytes whose [k' = min(count / 4, num_leds)]
    pixel words can be read hands to [dma_map_single] a frame of exactly
    [k' * 12 + RESET_BYTES] bytes, the first bytes of [state->buffer], whose
    last [RESET_BYTES] bytes are zero; with more pixels than [num_leds] the
    frame has [num_leds * 12 + RESET_BYTES] bytes and the write still
    returns [count]; with no pixel it has [RESET_BYTES] bytes. *)
Theorem write_frame_shape (pl : platform) (s : ws2812_state) (tr : list event)
    (buf : user_mem) (count : Z) :
  state_wf s -> 0 <= count < 2 ^ 32 ->
  readable buf (Z.to_nat (4 * Z.min (count / 4) (num_leds s))) ->
  exists (s' : ws2812_state) (frame : list Z) (rest : list event),
    ws2812_write pl s tr buf count
    = Some (C.to_int count, s',
            tr ++ Call_dma_map_single (dev s) frame
                    (Z.min (count / 4) (num_leds s) * BYTES_PER_LED
                     + RESET_BYTES)
                    (map_result pl) :: rest) /\
    frame = take (length frame) (buffer s') /\
    Z.of_nat (length frame)
    = Z.min (count / 4) (num_leds s) * BYTES_PER_LED + RESET_BYTES /\
    drop (length frame - Z.to_nat RESET_BYTES) frame
    = replicate (Z.to_nat RESET_BYTES) 0 /\
    (num_leds s < count / 4 ->
     Z.of_nat (length frame) = num_leds s * BYTES_PER_LED + RESET_BYTES) /\
    (count / 4 = 0 -> Z.of_nat (length frame) = RESET_BYTES).
Proof.
  intros Hwf Hcount Hread.
  rewrite ws2812_write_ok by done.
  set (k := Z.min (count / 4) (num_leds s)) in *.
  set (s1 := (copy_from_user s buf (4 * k)).2).
  set (f := frame_bytes (Z.to_nat k) (brightness s) (pixbuf s1) 0).
  set (z := replicate (Z.to_nat RESET_BYTES) 0).
  destruct (issue_dma_trace pl
              (set_buffer s1 ((f ++ z) ++ drop (length (f ++ z)) (buffer s)))
              tr 0 (k * BYTES_PER_LED + RESET_BYTES))
    as (ret & rest & ->).
  destruct Hwf as [Hb Hn Hfit Hbuf Hpix].
  destruct consts as (HB & HR & HI). rewrite HB, HR, HI in *.
  assert (0 <= k <= num_leds s).
  { subst k. pose proof (Z.div_pos count 4). lia. }
  assert (length f = (12 * Z.to_nat k)%nat) as Hf by apply frame_bytes_length.
  assert (length z = 15%nat) as Hz by apply length_replicate.
  assert (Z.to_nat (C.to_u32 (k * 12 + 15)) = length (f ++ z)) as Hsize.
  { rewrite to_u32_id, length_app by lia. lia. }
  cbn [buffer set_buffer set_dma_addr dev]. rewrite Hsize.
  change (drop (Z.to_nat 0)) with (@drop Z 0). rewrite drop_0.
  rewrite take_app_length, to_u32_id by lia.
  exists (set_dma_addr
            (set_buffer s1 ((f ++ z) ++ drop (length (f ++ z)) (buffer s)))
            (map_result pl)), (f ++ z), rest.
  cbn [fst snd buffer set_buffer set_dma_addr].
  split; [reflexivity|].
  split; [by rewrite take_app_length|].
  rewrite length_app, Hf, Hz.
  split; [lia|]. split; [|lia].
  replace (12 * Z.to_nat k + 15 - Z.to_nat 15)%nat with (length f) by lia.
  by rewrite drop_app_length.
Qed.

Lemma write_frame_shape_witness :
  exists (s' : ws2812_state) (frame : list Z) (rest : list event),
    ws2812_write dma_ok one_led [] (replicate 8 (Some 255)) 8
    = Some (C.to_int 8, s',
            [] ++ Call_dma_map_single (dev one_led) frame
                    (Z.min (8 / 4) (num_leds one_led) * BYTES_PER_LED
                     + RESET_BYTES)
                    (map_result dma_ok) :: rest) /\
    frame = take (length frame) (buffer s') /\
    Z.of_nat (length frame)
    = Z.min (8 / 4) (num_leds one_led) * BYTES_PER_LED + RESET_BYTES /\
    drop (length frame - Z.to_nat RESET_BYTES) frame
    = replicate (Z.to_nat RESET_BYTES) 0 /\
    (num_leds one_led < 8 / 4 ->
     Z.of_nat (length frame)
     = num_leds one_led * BYTES_PER_LED + RESET_BYTES) /\
    (8 / 4 = 0 -> Z.of_nat (length frame) = RESET_BYTES).
Proof.
  apply (write_frame_shape dma_ok one_led [] (replicate 8 (Some 255)) 8).
  - repeat split; by vm_compute.
  - lia.
  - intros i Hi. exists 255.
    apply lookup_replicate_2. simpl in Hi |- *. lia.
Defined.

(** C3 (as the code has it): the reset gap is 15 bytes, not 40:
    [RESET_BYTES] is [(50 * 24) / 80], the 120 bit times of a 2.4MHz clock
    in 50us at 8 bits per byte. *)
Theorem reset_bytes_value :
  RESET_BYTES = 15 /\ 8 * RESET_BYTES * 10 = 50 * 24.
Proof. split; reflexivity. Qed.

(** C3, the claim as stated fails: the constant is not 40. *)
Lemma reset_bytes_not_40 : RESET_BYTES <> 40.
Proof. by vm_compute. Qed.

(** C7 (as the code has it): for a byte count that is a valid [ssize_t],
    [ws2812_write] returns [-EFAULT] exactly when the
    [4 * min(count / 4, num_leds)] bytes at [buf] cannot all be read, and
    then [state->buffer] is unchanged and no call into the DMA API is made;
    otherwise it returns the byte count [count] it was called with, whatever
    the platform answers to the mapping and the descriptor request. *)
Theorem write_return_value (pl : platform) (s : ws2812_state)
    (tr : list event) (buf : user_mem) (count : Z) :
  state_wf s -> 0 <= count <= C.INT_MAX ->
  (ret_of (ws2812_write pl s tr buf count) = Some (- EFAULT)
   <-> ~ readable buf (Z.to_nat (4 * Z.min (count / 4) (num_leds s)))) /\
  (~ readable buf (Z.to_nat (4 * Z.min (count / 4) (num_leds s))) ->
   exists s' : ws2812_state,
     ws2812_write pl s tr buf count = Some (- EFAULT, s', tr) /\
     buffer s' = buffer s) /\
  (readable buf (Z.to_nat (4 * Z.min (count / 4) (num_leds s))) ->
   forall pl' : platform,
     ret_of (ws2812_write pl' s tr buf count) = Some count).
Proof.
  intros Hwf Hcount.
  set (n := Z.to_nat (4 * Z.min (count / 4) (num_leds s))).
  assert (0 <= count < 2 ^ 32) as Hcount'
    by (unfold C.INT_MAX in Hcount; lia).
  assert (readable buf n -> forall pl' : platform,
            ret_of (ws2812_write pl' s tr buf count) = Some count) as Hok.
  { intros Hread pl'. rewrite ws2812_write_ok by done.
    destruct (issue_dma _ _ _ _ _) as [[r s'] tr'].
    cbn. rewrite to_int_id; [done|]. unfold C.INT_MAX in Hcount. lia. }
  assert (~ readable buf n ->
          ws2812_write pl s tr buf count
          = Some (- EFAULT,
                  (copy_from_user s buf
                     (4 * Z.min (count / 4) (num_leds s))).2, tr)) as Hfault
    by (intros Hread; by apply ws2812_write_fault).
  split; [|split].
  - split.
    + intros Hret Hread. rewrite (Hok Hread pl) in Hret.
      injection Hret as Hret. unfold EFAULT in Hret. lia.
    + intros Hread. by rewrite (Hfault Hread).
  - intros Hread. eexists. split; [by apply Hfault|reflexivity].
  - exact Hok.
Qed.

Lemma write_return_value_witness :
  (ret_of (ws2812_write dma_ok one_led [] (replicate 8 (Some 255)) 8)
   = Some (- EFAULT)
   <-> ~ readable (replicate 8 (Some 255))
         (Z.to_nat (4 * Z.min (8 / 4) (num_leds one_led)))) /\
  (~ readable (replicate 8 (Some 255))
       (Z.to_nat (4 * Z.min (8 / 4) (num_leds one_led))) ->
   exists s' : ws2812_state,
     ws2812_write dma_ok one_led [] (replicate 8 (Some 255)) 8
     = Some (- EFAULT, s', []) /\
     buffer s' = buffer one_led) /\
  (readable (replicate 8 (Some 255))
     (Z.to_nat (4 * Z.min (8 / 4) (num_leds one_led))) ->
   forall pl' : platform,
     ret_of (ws2812_write pl' one_led [] (replicate 8 (Some 255)) 8)
     = Some 8).
Proof.
  apply (write_return_value dma_ok one_led [] (replicate 8 (Some 255)) 8).
  - repeat split; by vm_compute.
  - by vm_compute.
Defined.

(** C7, the claim as stated fails: with one LED, a write of 8 readable
    bytes returns 8, not 4 = 4 * min(8 / 4, 1). *)
Lemma write_returns_count_not_consumed :
  ret_of (ws2812_write dma_ok one_led [] (replicate 8 (Some 255)) 8) = Some 8
  /\ ret_of (ws2812_write dma_ok one_led [] (replicate 8 (Some 255)) 8)
     <> Some (4 * Z.min (8 / 4) (num_leds one_led)).
Proof. split; by vm_compute. Qed.

(** ** [clear_leds] and the frame of zero-value pixels *)

Lemma issue_dma_pixbuf (pl : platform) (s : ws2812_state) (tr : list event)
    (buf len : Z) (p : list Z) :
  issue_dma pl (set_pixbuf s p) tr buf len
  = (let '(r, s', tr') := issue_dma pl s tr buf len in
     (r, set_pixbuf s' p, tr')).
Proof.
  unfold issue_dma. cbn [dev dma_addr dma_chan buffer set_dma_addr set_pixbuf].
  destruct (map_result pl =? 0); [|destruct (prep_result pl)]; reflexivity.
Qed.

Lemma clear_leds_spec (pl : platform) (s : ws2812_state) (tr : list event) :
  state_wf s ->
  clear_leds pl s tr
  = (let '(_, s', tr') :=
       issue_dma pl
         (set_buffer s
            (replicate (Z.to_nat (num_leds s * BYTES_PER_LED)) 0x88
               ++ replicate (Z.to_nat RESET_BYTES) 0))
         tr 0 (num_leds s * BYTES_PER_LED + RESET_BYTES) in
     Some (0, s', tr')).
Proof.
  intros [Hb Hn Hfit Hbuf Hpix].
  destruct consts as (HB & HR & HI). rewrite HB, HR, HI in *.
  unfold clear_leds. rewrite HB, HR.
  rewrite (to_u32_id (num_leds s * 12)) by lia.
  rewrite (for_loop_fill _ _ 0 0x88); [|intros; by rewrite Z.add_0_l|lia..].
  cbn [mbind option_bind].
  rewrite (for_loop_fill _ _ (num_leds s * 12) 0);
    cbn [buffer set_buffer num_leds]; rewrite ?length_inserts; try lia.
  2: { intros j s' Hj ->. rewrite to_u32_id by lia. reflexivity. }
  cbn [mbind option_bind]. rewrite set_buffer_twice.
  cbn [num_leds set_buffer].
  rewrite to_u32_id, to_int_id by lia.
  set (f := replicate (Z.to_nat (num_leds s * 12)) 136).
  set (z := replicate (Z.to_nat 15) 0).
  assert (length f = Z.to_nat (num_leds s * 12)) as Hf
    by apply length_replicate.
  assert (length z = 15%nat) as Hz by apply length_replicate.
  change (Z.to_nat (0 + 0)) with 0%nat.
  replace (Z.to_nat (num_leds s * 12 + 0)) with (length f) by lia.
  rewrite inserts_frame_then_tail by lia.
  rewrite drop_ge, app_nil_r by lia.
  reflexivity.
Qed.

Lemma readable_prefix_replicate (n : nat) (b : Z) :
  readable_prefix (replicate n (Some b)) n = replicate n b.
Proof. induction n as [|n IH]; [done|]. simpl. by rewrite IH. Qed.

Lemma readable_replicate (n : nat) (b : Z) : readable (replicate n (Some b)) n.
Proof. intros i Hi. exists b. by apply lookup_replicate_2. Qed.

Lemma load_int32_zeros (m : nat) (rest : list Z) (j : Z) :
  0 <= j -> 4 * j + 4 <= Z.of_nat m ->
  C.load_int32 (replicate m 0 ++ rest) j = Some 0.
Proof.
  intros Hlo Hhi. unfold C.load_int32.
  rewrite !index_lookup by lia.
  rewrite !lookup_app_l by (rewrite length_replicate; lia).
  rewrite !lookup_replicate_2 by lia.
  reflexivity.
Qed.

Lemma pixel_bytes_zero (b : Z) :
  0 <= b <= 255 -> pixel_bytes b 0 = replicate 12 0x88.
Proof.
  intros Hb. unfold pixel_bytes.
  change (C.to_uchar (Z.shiftr 0 8)) with 0.
  change (C.to_uchar (Z.shiftr 0 16)) with 0.
  change (C.to_uchar 0) with 0.
  destruct (gamma_brightness_zero_channel b Hb) as [-> _].
  reflexivity.
Qed.

Lemma frame_bytes_zeros (n : nat) (b : Z) (pix : list Z) :
  0 <= b <= 255 ->
  forall i : Z,
  (forall j, i <= j < i + Z.of_nat n -> C.load_int32 pix j = Some 0) ->
  frame_bytes n b pix i = replicate (12 * n) 0x88.
Proof.
  intros Hb. induction n as [|n IH]; intros i Hload; [done|].
  cbn [frame_bytes]. rewrite Hload by lia. cbn [default].
  rewrite pixel_bytes_zero, IH by (try done; intros; apply Hload; lia).
  replace (12 * S n)%nat with (12 + 12 * n)%nat by lia.
  by rewrite replicate_add.
Qed.

Lemma zero_write_spec (pl : platform) (s : ws2812_state) (tr : list event) :
  state_wf s ->
  ws2812_write pl s tr (replicate (Z.to_nat (4 * num_leds s)) (Some 0))
    (4 * num_leds s)
  = (let '(_, s', tr') :=
       issue_dma pl
         (set_buffer s
            (replicate (Z.to_nat (num_leds s * BYTES_PER_LED)) 0x88
               ++ replicate (Z.to_nat RESET_BYTES) 0))
         tr 0 (num_leds s * BYTES_PER_LED + RESET_BYTES) in
     Some (4 * num_leds s,
           set_pixbuf s' (replicate (Z.to_nat (4 * num_leds s)) 0), tr')).
Proof.
  intros Hwf.
  pose proof Hwf as [Hb Hn Hfit Hbuf Hpix].
  destruct consts as (HB & HR & HI). rewrite HB, HR, HI in *.
  assert (4 * num_leds s / 4 = num_leds s) as Hdiv
    by (rewrite Z.mul_comm; apply Z.div_mul; lia).
  pose proof (ws2812_write_ok pl s tr
                (replicate (Z.to_nat (4 * num_leds s)) (Some 0))
                (4 * num_leds s) Hwf ltac:(lia)) as Hw.
  cbv zeta in Hw. rewrite Hdiv, Z.min_id, HB, HR in Hw.
  rewrite (Hw (readable_replicate _ _)). clear Hw.
  unfold copy_from_user. cbn [snd pixbuf set_pixbuf].
  rewrite readable_prefix_replicate, length_replicate.
  rewrite (drop_ge (pixbuf s)), app_nil_r by lia.
  rewrite frame_bytes_zeros; [|done|].
  2: { intros j Hj.
       rewrite <- (app_nil_r (replicate _ 0)).
       apply load_int32_zeros; lia. }
  rewrite to_int_id by lia.
  rewrite drop_ge, app_nil_r
    by (rewrite length_app, !length_replicate; lia).
  replace (12 * Z.to_nat (num_leds s))%nat
    with (Z.to_nat (num_leds s * 12)) by lia.
  set (B := replicate (Z.to_nat (num_leds s * 12)) 136
              ++ replicate (Z.to_nat 15) 0).
  set (p := replicate (Z.to_nat (4 * num_leds s)) 0).
  change (set_buffer (set_pixbuf s p) B) with (set_pixbuf (set_buffer s B) p).
  rewrite issue_dma_pixbuf.
  by destruct (issue_dma _ _ _ _ _) as [[r s'] tr'].
Qed.

(** C9: on every device state probe leaves, at any brightness, [clear_leds]
    and a write of [num_leds] zero-value pixels leave the same bytes in
    [state->buffer], [num_leds * 12] bytes 0x88 followed by [RESET_BYTES]
    zero bytes, and make the same calls into the DMA API, the first of them
    mapping this frame with length [num_leds * 12 + RESET_BYTES]. *)
Theorem clear_leds_as_zero_write (pl : platform) (s : ws2812_state)
    (tr : list event) :
  state_wf s ->
  exists (s1 s2 : ws2812_state) (tr' rest : list event),
    clear_leds pl s tr = Some (0, s1, tr') /\
    ws2812_write pl s tr (replicate (Z.to_nat (4 * num_leds s)) (Some 0))
      (4 * num_leds s)
    = Some (4 * num_leds s, s2, tr') /\
    buffer s1
    = replicate (Z.to_nat (num_leds s * BYTES_PER_LED)) 0x88
        ++ replicate (Z.to_nat RESET_BYTES) 0 /\
    buffer s2 = buffer s1 /\
    tr' = tr ++ Call_dma_map_single (dev s) (buffer s1)
                  (num_leds s * BYTES_PER_LED + RESET_BYTES) (map_result pl)
                  :: rest.
Proof.
  intros Hwf.
  rewrite clear_leds_spec, zero_write_spec by done.
  set (B := replicate (Z.to_nat (num_leds s * BYTES_PER_LED)) 136
              ++ replicate (Z.to_nat RESET_BYTES) 0).
  destruct (issue_dma_trace pl (set_buffer s B) tr 0
              (num_leds s * BYTES_PER_LED + RESET_BYTES))
    as (ret & rest & ->).
  destruct Hwf as [Hb Hn Hfit Hbuf Hpix].
  destruct consts as (HB & HR & HI). rewrite HB, HR, HI in *.
  eexists _, _, _, rest.
  split; [reflexivity|]. split; [reflexivity|].
  cbn [buffer set_buffer set_dma_addr set_pixbuf dev].
  split; [reflexivity|]. split; [reflexivity|].
  do 2 f_equal. rewrite to_u32_id by lia.
  change (drop (Z.to_nat 0)) with (@drop Z 0). rewrite drop_0.
  f_equal. apply take_ge. subst B.
  rewrite length_app, !length_replicate. lia.
Qed.

Lemma clear_leds_as_zero_write_witness :
  exists (s1 s2 : ws2812_state) (tr' rest : list event),
    clear_leds dma_ok one_led [] = Some (0, s1, tr') /\
    ws2812_write dma_ok one_led []
      (replicate (Z.to_nat (4 * num_leds one_led)) (Some 0))
      (4 * num_leds one_led)
    = Some (4 * num_leds one_led, s2, tr') /\
    buffer s1
    = replicate (Z.to_nat (num_leds one_led * BYTES_PER_LED)) 0x88
        ++ replicate (Z.to_nat RESET_BYTES) 0 /\
    buffer s2 = buffer s1 /\
    tr' = [] ++ Call_dma_map_single (dev one_led) (buffer s1)
                  (num_leds one_led * BYTES_PER_LED + RESET_BYTES)
                  (map_result dma_ok) :: rest.
Proof.
  apply (clear_leds_as_zero_write dma_ok one_led []).
  repeat split; by vm_compute.
Defined.

(** ** The mapping on the completion and error paths *)

(** The size [ws2812_callback] passes to [dma_unmap_single] is never the
    size of a frame that [ws2812_write] or [clear_leds] mapped. *)
Lemma unmap_size_is_no_frame_size (s : ws2812_state) (k : Z) :
  state_wf s -> 0 <= k ->
  C.to_u32 (num_leds s * BYTES_PER_LED) <> k * BYTES_PER_LED + RESET_BYTES.
Proof.
  intros [Hb Hn Hfit Hbuf Hpix] Hk.
  destruct consts as (HB & HR & HI). rewrite HB, HR, HI in *.
  rewrite to_u32_id by lia. lia.
Qed.

(** When the mapping is established and no descriptor is handed out,
    [issue_dma] returns -1 after the calls to [dma_map_single] and
    [dmaengine_prep_slave_single] and a log line: there is no
    [dma_unmap_single]. *)
Lemma issue_dma_prep_failure (pl : platform) (s : ws2812_state)
    (tr : list event) (buf len : Z) :
  map_result pl <> 0 -> prep_result pl = false ->
  issue_dma pl s tr buf len
  = (-1, set_dma_addr s (map_result pl),
     tr ++ [Call_dma_map_single (dev s)
              (take (Z.to_nat (C.to_u32 len)) (drop (Z.to_nat buf) (buffer s)))
              (C.to_u32 len) (map_result pl);
            Call_prep_slave_single (dma_chan s) (map_result pl) (C.to_u32 len)
              false;
            Call_pr_err "Failed to prep the DMA transfer"]).
Proof.
  intros Hmap Hprep. unfold issue_dma.
  cbn [dev dma_addr dma_chan set_dma_addr]. rewrite Hprep.
  destruct (Z.eqb_spec (map_result pl) 0); [done|].
  cbn [negb]. by rewrite <- !app_assoc.
Qed.

(** C5, on a strip of one LED: the write of one pixel maps 27 bytes
    (12 + [RESET_BYTES]) at bus address 4096; the completion callback then
    unmaps 12 bytes ([num_leds * BYTES_PER_LED]) at that address on the same
    device, so the sizes of map and unmap differ and the mapping of 27
    bytes is not among those released. *)
Theorem callback_unmaps_other_size :
  exists (s' : ws2812_state) (frame : list Z),
    ws2812_write dma_ok one_led [] (replicate 4 (Some 255)) 4
    = Some (4, s',
            [Call_dma_map_single 1 frame 27 4096;
             Call_prep_slave_single 2 4096 27 true;
             Call_dmaengine_submit 2 4096 27;
             Call_issue_pending 2]) /\
    ws2812_callback s'
      [Call_dma_map_single 1 frame 27 4096;
       Call_prep_slave_single 2 4096 27 true;
       Call_dmaengine_submit 2 4096 27;
       Call_issue_pending 2]
    = [Call_dma_map_single 1 frame 27 4096;
       Call_prep_slave_single 2 4096 27 true;
       Call_dmaengine_submit 2 4096 27;
       Call_issue_pending 2;
       Call_dma_unmap_single 1 4096 12] /\
    held_mappings
      (ws2812_callback s'
         [Call_dma_map_single 1 frame 27 4096;
          Call_prep_slave_single 2 4096 27 true;
          Call_dmaengine_submit 2 4096 27;
          Call_issue_pending 2])
    = [(1, 4096, 27)].
Proof. eexists _, _. split; [by vm_compute|]. split; by vm_compute. Qed.

(** C6, on a strip of one LED: when [dma_map_single] returns the bus
    address 4096 and [dmaengine_prep_slave_single] returns no descriptor,
    [issue_dma] returns -1 without a call to [dma_unmap_single]: the
    mapping of the 27 bytes is still held when it returns. *)
Theorem prep_failure_keeps_mapping :
  issue_dma dma_prep_fails one_led [] 0 27
  = (-1, set_dma_addr one_led 4096,
     [Call_dma_map_single 1 (replicate 27 7) 27 4096;
      Call_prep_slave_single 2 4096 27 false;
      Call_pr_err "Failed to prep the DMA transfer"]) /\
  held_mappings (issue_dma dma_prep_fails one_led [] 0 27).2 = [(1, 4096, 27)].
Proof. split; by vm_compute. Qed.

(** * Further properties of the driver *)

(** ** More on the gamma table and [gamma_] *)

Lemma below_diagonal_lookup (l : list Z) :
  forall (i : Z) (n : nat) (x : Z),
  below_diagonal i l = true -> l !! n = Some x -> x <= i + Z.of_nat n.
Proof.
  induction l as [|y l IH]; intros i n x Hb Hn; [done|].
  cbn [below_diagonal] in Hb. apply andb_prop in Hb as [Hy Hb].
  apply Z.leb_le in Hy.
  destruct n as [|n]; simpl in Hn.
  - injection Hn as <-. lia.
  - specialize (IH (i + 1) n x Hb Hn). lia.
Qed.

Lemma GammaE_below_diagonal : below_diagonal 0 GammaE = true.
Proof. by vm_compute. Qed.

Lemma div255_bounds (x : Z) : 255 * (x / 255) <= x < 255 * (x / 255) + 255.
Proof.
  pose proof (Z.div_mod x 255 ltac:(lia)).
  pose proof (Z.mod_pos_bound x 255 ltac:(lia)). lia.
Qed.

(** X1: dimming never brightens.  For a fixed channel value, [gamma_] is
    non-decreasing in the brightness. *)
Theorem gamma_monotone_in_brightness (b b' c : Z) :
  0 <= b -> b <= b' -> b' <= 255 -> 0 <= c <= 255 ->
  exists g g' : Z, gamma_ b c = Some g /\ gamma_ b' c = Some g' /\ g <= g'.
Proof.
  intros Hb Hbb Hb' Hc.
  destruct (gamma_Some b c) as [g [Hg _]]; [lia..|].
  destruct (gamma_Some b' c) as [g' [Hg' _]]; [lia..|].
  exists g, g'. split; [done|]. split; [done|].
  rewrite gamma_lookup in Hg, Hg' by lia.
  assert (0 <= c * b / 255) by (apply Z.div_pos; nia).
  assert (c * b / 255 <= c * b' / 255) by (apply Z.div_le_mono; nia).
  eapply (nondecreasing_lookup GammaE); [apply GammaE_nondecreasing| |done..].
  lia.
Qed.

Lemma gamma_monotone_in_brightness_witness :
  exists g g' : Z, gamma_ 40 200 = Some g /\ gamma_ 250 200 = Some g' /\ g <= g'.
Proof. apply (gamma_monotone_in_brightness 40 250 200); lia. Defined.

(** X2: the corrected value never exceeds the channel value nor the
    brightness. *)
Theorem gamma_below_inputs (b c : Z) :
  0 <= b <= 255 -> 0 <= c <= 255 ->
  exists g : Z, gamma_ b c = Some g /\ 0 <= g /\ g <= c /\ g <= b.
Proof.
  intros Hb Hc.
  destruct (gamma_Some b c Hb Hc) as [g [Hg Hr]].
  exists g. split; [done|]. split; [lia|].
  rewrite gamma_lookup in Hg by done.
  pose proof (below_diagonal_lookup GammaE 0 _ g GammaE_below_diagonal Hg)
    as Hdiag.
  assert (0 <= c * b / 255) by (apply Z.div_pos; nia).
  assert (c * b / 255 <= c) by (apply Z.div_le_upper_bound; nia).
  assert (c * b / 255 <= b) by (apply Z.div_le_upper_bound; nia).
  lia.
Qed.

Lemma gamma_below_inputs_witness :
  exists g : Z, gamma_ 128 200 = Some g /\ 0 <= g /\ g <= 200 /\ g <= 128.
Proof. apply (gamma_below_inputs 128 200); lia. Defined.

(** X3: the dark threshold.  [gamma_] returns 0 exactly when
    [c * b < 22 * 255], i.e. when the scaled intensity is below 22. *)
Theorem gamma_zero_iff (b c : Z) :
  0 <= b <= 255 -> 0 <= c <= 255 ->
  gamma_ b c = Some 0 <-> c * b < 22 * 255.
Proof.
  intros Hb Hc.
  destruct (gamma_Some b c Hb Hc) as [g [Hg Hr]].
  destruct (gamma_scaled b c Hb Hc) as [_ Hi].
  pose proof Hg as Hl. rewrite gamma_lookup in Hl by done.
  rewrite Hg.
  assert (GammaE !! 21%nat = Some 0) as H21 by reflexivity.
  assert (GammaE !! 22%nat = Some 1) as H22 by reflexivity.
  destruct (Z_lt_le_dec (c * b / 255) 22) as [Hlt|Hge].
  - assert (g <= 0)
      by (eapply (nondecreasing_lookup GammaE _ 21);
          [apply GammaE_nondecreasing| |done..]; lia).
    pose proof (div255_bounds (c * b)).
    assert (c * b < 22 * 255) by lia.
    split; [done|]. intros _. f_equal. lia.
  - assert (1 <= g)
      by (eapply (nondecreasing_lookup GammaE 22 _);
          [apply GammaE_nondecreasing| |done..]; lia).
    pose proof (div255_bounds (c * b)).
    assert (22 * 255 <= c * b) by lia.
    split; [|lia]. intros [= ->]. lia.
Qed.

Lemma gamma_zero_iff_witness : gamma_ 100 56 = Some 0 <-> 56 * 100 < 22 * 255.
Proof. apply (gamma_zero_iff 100 56); lia. Defined.

(** X4: full scale.  [gamma_] returns 255 only for channel value 255 at
    brightness 255. *)
Theorem gamma_full_scale_iff (b c : Z) :
  0 <= b <= 255 -> 0 <= c <= 255 ->
  gamma_ b c = Some 255 <-> b = 255 /\ c = 255.
Proof.
  intros Hb Hc. split.
  - intros Hg. rewrite gamma_lookup in Hg by done.
    destruct (gamma_scaled b c Hb Hc) as [_ Hi].
    assert (GammaE !! 254%nat = Some 252) as H254 by reflexivity.
    destruct (Z_lt_le_dec (c * b / 255) 255) as [Hlt|Hge].
    + assert (255 <= 252)
        by (eapply (nondecreasing_lookup GammaE _ 254);
            [apply GammaE_nondecreasing| |done..]; lia).
      lia.
    + pose proof (div255_bounds (c * b)).
      assert (255 * 255 <= c * b) by lia. nia.
  - intros [-> ->]. reflexivity.
Qed.

Lemma gamma_full_scale_iff_witness :
  gamma_ 255 254 = Some 255 <-> 255 = 255 /\ 254 = 255.
Proof. apply (gamma_full_scale_iff 255 254); lia. Defined.

(** ** More on the nibble encoder *)

Lemma land_3_mod (r : Z) : Z.land r 3 = r mod 4.
Proof. apply (Z.land_ones r 2). lia. Qed.

Lemma nibble_congr (x y : Z) : x mod 4 = y mod 4 -> nibble x = nibble y.
Proof. intros H. unfold nibble. by rewrite !land_3_mod, H. Qed.

Lemma mod_pow4_succ (x : Z) (n : nat) :
  x mod 4 ^ Z.of_nat (S n) = x mod 4 + 4 * ((x / 4) mod 4 ^ Z.of_nat n).
Proof.
  rewrite Nat2Z.inj_succ, Z.pow_succ_r by lia.
  apply Z.rem_mul_r; [lia|]. apply Z.pow_pos_nonneg; lia.
Qed.

Lemma nibbles_congr (n : nat) :
  forall x y : Z,
  x mod 4 ^ Z.of_nat n = y mod 4 ^ Z.of_nat n -> nibbles n x = nibbles n y.
Proof.
  induction n as [|n IH]; intros x y H; [done|].
  rewrite !mod_pow4_succ in H.
  pose proof (Z.mod_pos_bound x 4 ltac:(lia)).
  pose proof (Z.mod_pos_bound y 4 ltac:(lia)).
  cbn [nibbles]. rewrite !Z.shiftr_div_pow2 by lia. change (2 ^ 2) with 4.
  f_equal; [apply nibble_congr; lia | apply IH; lia].
Qed.

Lemma nibbles_app (n m : nat) :
  forall x : Z,
  nibbles (n + m) x = nibbles n x ++ nibbles m (Z.shiftr x (2 * Z.of_nat n)).
Proof.
  induction n as [|n IH]; intros x.
  - simpl. by rewrite Z.shiftr_0_r.
  - cbn [nibbles Nat.add app]. rewrite IH. do 3 f_equal.
    rewrite Z.shiftr_shiftr by lia. f_equal. lia.
Qed.

Lemma unnibble_nibble (r : Z) : unnibble (nibble r) = r mod 4.
Proof.
  unfold nibble. rewrite <- land_3_mod.
  destruct (land_3_cases r) as [-> | [-> | [-> | ->]]]; reflexivity.
Qed.

Lemma unnibbles_nibbles (n : nat) :
  forall x : Z, unnibbles (nibbles n x) = x mod 4 ^ Z.of_nat n.
Proof.
  induction n as [|n IH]; intros x.
  - simpl. by rewrite Z.mod_1_r.
  - cbn [nibbles unnibbles].
    rewrite unnibble_nibble, IH, mod_pow4_succ.
    rewrite Z.shiftr_div_pow2 by lia. reflexivity.
Qed.

(** X5: the byte one round stores spells the two low bits of [rearrange] as
    nibbles: the high nibble is 1110 when bit 1 is set and 1000 when it is
    clear, the low nibble the same for bit 0. *)
Theorem encode_step_nibbles (s : ws2812_state) (r buf : Z) :
  0 <= buf < Z.of_nat (length (buffer s)) ->
  exists s' : ws2812_state,
    encode_step s r buf = Some (s', buf + 1) /\
    buffer s' !! Z.to_nat buf
    = Some ((if Z.testbit r 1 then 0xe0 else 0x80)
            + (if Z.testbit r 0 then 0x0e else 0x08)).
Proof.
  intros Hbuf. eexists. split; [by apply encode_step_in|].
  cbn [buffer set_buffer]. rewrite list_lookup_insert_eq by lia. f_equal.
  assert (Z.testbit r 0 = Z.testbit (Z.land r 3) 0) as ->
    by (rewrite Z.land_spec; change (Z.testbit 3 0) with true;
        by rewrite andb_true_r).
  assert (Z.testbit r 1 = Z.testbit (Z.land r 3) 1) as ->
    by (rewrite Z.land_spec; change (Z.testbit 3 1) with true;
        by rewrite andb_true_r).
  unfold nibble.
  destruct (land_3_cases r) as [-> | [-> | [-> | ->]]]; reflexivity.
Qed.

Lemma encode_step_nibbles_witness :
  exists s' : ws2812_state,
    encode_step one_led 6 3 = Some (s', 3 + 1) /\
    buffer s' !! Z.to_nat 3
    = Some ((if Z.testbit 6 1 then 0xe0 else 0x80)
            + (if Z.testbit 6 0 then 0x0e else 0x08)).
Proof. apply (encode_step_nibbles one_led 6 3). by vm_compute. Defined.

(** X6: the channel order on the wire.  Encoding a pixel is encoding, four
    rounds each and in this order, the corrected bits 8..15, the corrected
    bits 0..7 and the corrected bits 16..23 of the pixel word. *)
Theorem led_encode_channel_order (s : ws2812_state) (rgb buf : Z) :
  0 <= brightness s <= 255 ->
  0 <= buf -> buf + 12 <= Z.of_nat (length (buffer s)) ->
  exists red blu grn : Z,
    gamma_ (brightness s) (C.to_uchar (Z.shiftr rgb 8)) = Some red /\
    gamma_ (brightness s) (C.to_uchar rgb) = Some blu /\
    gamma_ (brightness s) (C.to_uchar (Z.shiftr rgb 16)) = Some grn /\
    led_encode s rgb buf
    = ('(s1, p1) ← led_encode_loop 4 s red buf;
       '(s2, p2) ← led_encode_loop 4 s1 blu p1;
       led_encode_loop 4 s2 grn p2).
Proof.
  intros Hb Hlo Hhi.
  destruct (gamma_val_Some (brightness s) (C.to_uchar (Z.shiftr rgb 8)) Hb
              (to_uchar_range _)) as [Hr Hred].
  destruct (gamma_val_Some (brightness s) (C.to_uchar rgb) Hb
              (to_uchar_range _)) as [Hbl Hblu].
  destruct (gamma_val_Some (brightness s) (C.to_uchar (Z.shiftr rgb 16)) Hb
              (to_uchar_range _)) as [Hg Hgrn].
  eexists _, _, _. split; [exact Hr|]. split; [exact Hbl|]. split; [exact Hg|].
  rewrite led_encode_spec by done. unfold pixel_bytes.
  set (red := gamma_val _ (C.to_uchar (Z.shiftr rgb 8))) in *.
  set (blu := gamma_val _ (C.to_uchar rgb)) in *.
  set (grn := gamma_val _ (C.to_uchar (Z.shiftr rgb 16))) in *.
  rewrite (led_encode_loop_spec 4 s) by lia. cbn [mbind option_bind].
  rewrite (led_encode_loop_spec 4); cbn [buffer set_buffer];
    rewrite ?length_inserts; try lia.
  cbn [mbind option_bind].
  rewrite (led_encode_loop_spec 4); cbn [buffer set_buffer];
    rewrite ?length_inserts; try lia.
  rewrite !set_buffer_twice. f_equal. f_equal; [|lia]. f_equal.
  rewrite !Z.shiftl_mul_pow2 by lia.
  change 12%nat with (4 + (4 + 4))%nat.
  rewrite !nibbles_app, !list_inserts_app_l, !nibbles_length.
  rewrite !Z.shiftr_shiftr, !Z.shiftr_div_pow2 by lia.
  replace (Z.to_nat (buf + Z.of_nat 4)) with (4 + Z.to_nat buf)%nat by lia.
  replace (Z.to_nat (buf + Z.of_nat 4 + Z.of_nat 4))
    with (4 + (4 + Z.to_nat buf))%nat by lia.
  assert ((red + blu * 2 ^ 8 + grn * 2 ^ 16) / 2 ^ (2 * Z.of_nat 4)
          = blu + grn * 2 ^ 8) as ->.
  { replace (red + blu * 2 ^ 8 + grn * 2 ^ 16)
      with (red + (blu + grn * 2 ^ 8) * 2 ^ 8) by lia.
    change (2 * Z.of_nat 4) with 8.
    rewrite Z.div_add, Z.div_small by lia. lia. }
  assert ((red + blu * 2 ^ 8 + grn * 2 ^ 16)
            / 2 ^ (2 * Z.of_nat 4 + 2 * Z.of_nat 4) = grn) as ->.
  { change (2 * Z.of_nat 4 + 2 * Z.of_nat 4) with 16.
    rewrite Z.div_add, Z.div_small by lia. lia. }
  rewrite (nibbles_congr 4 (red + blu * 2 ^ 8 + grn * 2 ^ 16) red).
  2: { replace (red + blu * 2 ^ 8 + grn * 2 ^ 16)
         with (red + (blu + grn * 2 ^ 8) * 4 ^ Z.of_nat 4) by lia.
       apply Z_mod_plus_full. }
  rewrite (nibbles_congr 4 (blu + grn * 2 ^ 8) blu).
  2: { change (2 ^ 8) with (4 ^ Z.of_nat 4). apply Z_mod_plus_full. }
  reflexivity.
Qed.

Lemma led_encode_channel_order_witness :
  exists red blu grn : Z,
    gamma_ (brightness one_led) (C.to_uchar (Z.shiftr 0x112233 8))
    = Some red /\
    gamma_ (brightness one_led) (C.to_uchar 0x112233) = Some blu /\
    gamma_ (brightness one_led) (C.to_uchar (Z.shiftr 0x112233 16))
    = Some grn /\
    led_encode one_led 0x112233 0
    = ('(s1, p1) ← led_encode_loop 4 one_led red 0;
       '(s2, p2) ← led_encode_loop 4 s1 blu p1;
       led_encode_loop 4 s2 grn p2).
Proof.
  apply (led_encode_channel_order one_led 0x112233 0); by vm_compute.
Defined.

Lemma to_uchar_shiftr_mod (x k n : Z) :
  0 <= k -> k + 8 <= n ->
  C.to_uchar (Z.shiftr (x mod 2 ^ n) k) = C.to_uchar (Z.shiftr x k).
Proof.
  intros Hk Hn. unfold C.to_uchar.
  rewrite !Z.shiftr_div_pow2 by lia.
  rewrite (Z.div_mod x (2 ^ n)) at 2 by lia.
  replace (2 ^ n) with (2 ^ (n - k - 8) * 2 ^ 8 * 2 ^ k) at 2
    by (rewrite <- !Z.pow_add_r by lia; f_equal; lia).
  replace (2 ^ (n - k - 8) * 2 ^ 8 * 2 ^ k * (x / 2 ^ n) + x mod 2 ^ n)
    with (x mod 2 ^ n + (2 ^ (n - k - 8) * (x / 2 ^ n) * 2 ^ 8) * 2 ^ k)
    by lia.
  rewrite Z.div_add by lia.
  change 256 with (2 ^ 8).
  by rewrite Z_mod_plus_full.
Qed.

(** X7: the top byte of the pixel word is not used.  Two pixel words with
    the same low 24 bits are encoded alike; in particular a word and its
    low 24 bits are. *)
Theorem led_encode_ignores_top_byte (s : ws2812_state) (rgb buf : Z) :
  led_encode s (rgb mod 2 ^ 24) buf = led_encode s rgb buf.
Proof.
  unfold led_encode.
  rewrite (to_uchar_shiftr_mod rgb 8 24), (to_uchar_shiftr_mod rgb 16 24)
    by lia.
  pose proof (to_uchar_shiftr_mod rgb 0 24 ltac:(lia) ltac:(lia)) as H0.
  rewrite !Z.shiftr_0_r in H0. rewrite H0. reflexivity.
Qed.

(** X8: the twelve rounds lose nothing of a 24-bit value: two values below
    2^24 that leave the same bytes in the buffer are equal. *)
Theorem led_encode_loop_injective (s : ws2812_state) (x y buf : Z) :
  0 <= x < 2 ^ 24 -> 0 <= y < 2 ^ 24 ->
  0 <= buf -> buf + 12 <= Z.of_nat (length (buffer s)) ->
  led_encode_loop 12 s x buf = led_encode_loop 12 s y buf -> x = y.
Proof.
  intros Hx Hy Hlo Hhi Heq.
  rewrite !led_encode_loop_spec in Heq by (simpl; lia).
  pose proof (unnibbles_nibbles 12 x) as Ux.
  pose proof (unnibbles_nibbles 12 y) as Uy.
  pose proof (nibbles_length 12 x) as Lx.
  pose proof (nibbles_length 12 y) as Ly.
  remember (nibbles 12 x) as nx. remember (nibbles 12 y) as ny.
  assert (list_inserts (Z.to_nat buf) nx (buffer s)
          = list_inserts (Z.to_nat buf) ny (buffer s)) as Hins
    by (injection Heq; done).
  assert (nx = ny) as Hn.
  { apply list_eq. intros i.
    destruct (decide (i < 12)%nat) as [Hi|Hi].
    - assert (list_inserts (Z.to_nat buf) nx (buffer s)
                !! (Z.to_nat buf + i)%nat
              = list_inserts (Z.to_nat buf) ny (buffer s)
                  !! (Z.to_nat buf + i)%nat) as Hl by (by rewrite Hins).
      rewrite !list_lookup_inserts in Hl by lia.
      by replace (Z.to_nat buf + i - Z.to_nat buf)%nat with i in Hl by lia.
    - rewrite !lookup_ge_None_2 by lia. done. }
  rewrite Hn, Uy in Ux.
  change (4 ^ Z.of_nat 12) with (2 ^ 24) in Ux.
  rewrite !Z.mod_small in Ux by lia. done.
Qed.

Lemma led_encode_loop_injective_witness : 0x0a0b0c = 0x0a0b0c.
Proof.
  apply (led_encode_loop_injective one_led 0x0a0b0c 0x0a0b0c 0);
    try reflexivity; by vm_compute.
Defined.

(** X9: at brightness 0 every pixel word is encoded as twelve bytes 0x88. *)
Theorem led_encode_brightness_zero (s : ws2812_state) (rgb buf : Z) :
  brightness s = 0 ->
  0 <= buf -> buf + 12 <= Z.of_nat (length (buffer s)) ->
  led_encode s rgb buf
  = Some (set_buffer s
            (list_inserts (Z.to_nat buf) (replicate 12 0x88) (buffer s)),
          buf + 12).
Proof.
  intros Hb Hlo Hhi.
  rewrite led_encode_spec by (rewrite ?Hb; lia).
  unfold pixel_bytes, gamma_val. rewrite Hb.
  rewrite !gamma_lookup, !Z.mul_0_r by (try lia; apply to_uchar_range).
  reflexivity.
Qed.

Lemma led_encode_brightness_zero_witness :
  led_encode one_led_dark 0xffffff 0
  = Some (set_buffer one_led_dark
            (list_inserts (Z.to_nat 0) (replicate 12 0x88)
               (buffer one_led_dark)),
          0 + 12).
Proof.
  apply (led_encode_brightness_zero one_led_dark 0xffffff 0);
    [reflexivity | lia | by vm_compute].
Defined.

(** ** More on [issue_dma] *)

Lemma held_from_app (tr1 tr2 : list event) (held : list mapping) :
  held_from (tr1 ++ tr2) held = held_from tr2 (held_from tr1 held).
Proof.
  revert held. induction tr1 as [|e tr1 IH]; intros held; [done|].
  destruct e; simpl; apply IH.
Qed.

(** X10: [issue_dma] returns 0 exactly when the mapping gives a non-zero
    bus address and a descriptor is handed out, and -1 otherwise; it changes
    nothing of the state but [dma_addr]; when it returns 0 it has submitted
    the bus address and length it mapped and started the channel, in this
    order. *)
Theorem issue_dma_result (pl : platform) (s : ws2812_state)
    (tr : list event) (buf len : Z) :
  exists (ret : Z) (tr' : list event),
    issue_dma pl s tr buf len = (ret, set_dma_addr s (map_result pl), tr') /\
    (ret = 0 \/ ret = -1) /\
    (ret = 0 <-> map_result pl <> 0 /\ prep_result pl = true) /\
    (ret = 0 ->
     tr' = tr ++ [Call_dma_map_single (dev s)
                    (take (Z.to_nat (C.to_u32 len))
                       (drop (Z.to_nat buf) (buffer s)))
                    (C.to_u32 len) (map_result pl);
                  Call_prep_slave_single (dma_chan s) (map_result pl)
                    (C.to_u32 len) true;
                  Call_dmaengine_submit (dma_chan s) (map_result pl)
                    (C.to_u32 len);
                  Call_issue_pending (dma_chan s)]).
Proof.
  unfold issue_dma. cbn [dev dma_addr dma_chan set_dma_addr].
  destruct (Z.eqb_spec (map_result pl) 0) as [Hm|Hm];
    [|destruct (prep_result pl) eqn:Hp; cbn [negb]];
    eexists _, _; (split; [reflexivity|]).
  - split; [by right|]. split; [|done]. split; [done|]. by intros [? _].
  - split; [by left|]. split; [done|]. intros _.
    by rewrite <- !app_assoc.
  - split; [by right|]. split; [|done]. split; [done|]. by intros [_ ?].
Qed.

(** X11: after [issue_dma] the mappings held are those held before, plus
    the one of the mapped region when [dma_map_single] returned a bus
    address, whether or not a descriptor was handed out. *)
Theorem issue_dma_held_mappings (pl : platform) (s : ws2812_state)
    (tr : list event) (buf len : Z) :
  held_mappings (issue_dma pl s tr buf len).2
  = held_mappings tr
      ++ (if map_result pl =? 0 then []
          else [(dev s, map_result pl, C.to_u32 len)]).
Proof.
  unfold issue_dma, held_mappings.
  cbn [dev dma_addr dma_chan set_dma_addr].
  destruct (map_result pl =? 0) eqn:Hm;
    [|destruct (prep_result pl); cbn [negb]]; cbn [snd];
    rewrite !held_from_app; cbn [held_from]; rewrite Hm;
    by rewrite ?app_nil_r.
Qed.

(** ** More on [ws2812_write] and [clear_leds] *)

Lemma load_int32_le_bytes (w : Z) (a : list Z) :
  - 2 ^ 31 <= w < 2 ^ 31 -> C.load_int32 (le_bytes w ++ a) 0 = Some w.
Proof.
  intros Hw. unfold C.load_int32, le_bytes.
  rewrite !index_lookup by lia. simpl. f_equal.
  rewrite !Z.shiftl_mul_pow2 by lia.
  unfold C.to_int.
  assert (w mod 256 + (w / 2 ^ 8) mod 256 * 2 ^ 8
          + (w / 2 ^ 16) mod 256 * 2 ^ 16 + (w / 2 ^ 24) mod 256 * 2 ^ 24
          = w mod 2 ^ 32) as ->.
  { change (2 ^ 8) with 256. change (2 ^ 16) with 65536.
    change (2 ^ 24) with 16777216. change (2 ^ 32) with 4294967296.
    Z.div_mod_to_equations. lia. }
  change (2 ^ 31) with 2147483648 in *. change (2 ^ 32) with 4294967296.
  Z.div_mod_to_equations. lia.
Qed.

Lemma load_int32_skip_word (b0 b1 b2 b3 : Z) (a : list Z) (i : Z) :
  0 <= i ->
  C.load_int32 (b0 :: b1 :: b2 :: b3 :: a) (i + 1) = C.load_int32 a i.
Proof.
  intros Hi. unfold C.load_int32.
  rewrite !index_lookup by lia.
  replace (Z.to_nat (4 * (i + 1))) with (4 + Z.to_nat (4 * i))%nat by lia.
  replace (Z.to_nat (4 * (i + 1) + 1))
    with (4 + Z.to_nat (4 * i + 1))%nat by lia.
  replace (Z.to_nat (4 * (i + 1) + 2))
    with (4 + Z.to_nat (4 * i + 2))%nat by lia.
  replace (Z.to_nat (4 * (i + 1) + 3))
    with (4 + Z.to_nat (4 * i + 3))%nat by lia.
  reflexivity.
Qed.

Lemma frame_bytes_skip_word (n : nat) (b b0 b1 b2 b3 : Z) (a : list Z) :
  forall i : Z, 0 <= i ->
  frame_bytes n b (b0 :: b1 :: b2 :: b3 :: a) (i + 1) = frame_bytes n b a i.
Proof.
  induction n as [|n IH]; intros i Hi; [done|].
  cbn [frame_bytes]. rewrite load_int32_skip_word, IH by lia. reflexivity.
Qed.

Lemma frame_bytes_words (b : Z) (ws rest : list Z) :
  Forall (fun w => - 2 ^ 31 <= w < 2 ^ 31) ws ->
  frame_bytes (length ws) b (flat_map le_bytes ws ++ rest) 0
  = flat_map (pixel_bytes b) ws.
Proof.
  induction 1 as [|w ws Hw _ IH]; [done|].
  cbn [length frame_bytes flat_map]. rewrite <- app_assoc.
  rewrite load_int32_le_bytes by done. cbn [default]. f_equal.
  change (le_bytes w ++ flat_map le_bytes ws ++ rest)
    with (w mod 256 :: (w / 2 ^ 8) mod 256 :: (w / 2 ^ 16) mod 256
            :: (w / 2 ^ 24) mod 256 :: (flat_map le_bytes ws ++ rest)).
  rewrite frame_bytes_skip_word by lia. exact IH.
Qed.

Lemma readable_prefix_Some (l : list Z) (rest : user_mem) :
  readable_prefix ((Some <$> l) ++ rest) (length l) = l.
Proof.
  induction l as [|x l IH]; csimpl; [by destruct rest|].
  cbn [readable_prefix]. by rewrite IH.
Qed.

Lemma le_bytes_length (ws : list Z) :
  length (flat_map le_bytes ws) = (4 * length ws)%nat.
Proof. induction ws as [|w ws IH]; simpl; lia. Qed.

(** X12: the frame is the pixels in input order.  A write of the words
    [ws] (as many as, or fewer than, [num_leds]; little-endian in user
    memory) hands to [dma_map_single] the twelve bytes of each word, in the
    order of the words, followed by [RESET_BYTES] zero bytes, whatever the
    buffer held before. *)
Theorem write_encodes_words_in_order (pl : platform) (s : ws2812_state)
    (tr : list event) (ws : list Z) :
  state_wf s ->
  Forall (fun w => - 2 ^ 31 <= w < 2 ^ 31) ws ->
  Z.of_nat (length ws) <= num_leds s ->
  exists (s' : ws2812_state) (rest : list event),
    ws2812_write pl s tr (Some <$> flat_map le_bytes ws)
      (4 * Z.of_nat (length ws))
    = Some (4 * Z.of_nat (length ws), s',
            tr ++ Call_dma_map_single (dev s)
                    (flat_map (pixel_bytes (brightness s)) ws
                       ++ replicate (Z.to_nat RESET_BYTES) 0)
                    (Z.of_nat (length ws) * BYTES_PER_LED + RESET_BYTES)
                    (map_result pl) :: rest).
Proof.
  intros Hwf Hws Hlen.
  pose proof Hwf as [Hb Hn Hfit Hbuf Hpix].
  destruct consts as (HB & HR & HI). rewrite HB, HR, HI in *.
  set (n := Z.of_nat (length ws)) in *.
  assert (4 * n / 4 = n) as Hdiv
    by (rewrite Z.mul_comm; apply Z.div_mul; lia).
  pose proof (ws2812_write_ok pl s tr (Some <$> flat_map le_bytes ws)
                (4 * n) Hwf ltac:(lia)) as Hw.
  cbv zeta in Hw. rewrite Hdiv, Z.min_l, HB, HR in Hw by lia.
  assert (Z.to_nat (4 * n) = length (flat_map le_bytes ws)) as Hl
    by (rewrite le_bytes_length; lia).
  rewrite Hw; clear Hw.
  2: { intros i Hi. rewrite Hl in Hi.
       destruct (lookup_lt_is_Some_2 (flat_map le_bytes ws) i Hi) as [x Hx].
       exists x.
       pose proof (list_lookup_fmap Some (flat_map le_bytes ws) i) as Hf.
       rewrite Hx in Hf. exact Hf. }
  unfold copy_from_user. cbn [snd pixbuf set_pixbuf]. rewrite Hl.
  rewrite <- (app_nil_r (Some <$> _)), readable_prefix_Some.
  replace (Z.to_nat n) with (length ws) by lia.
  rewrite frame_bytes_words by done.
  rewrite to_int_id by lia.
  match goal with
  | |- context [issue_dma pl ?s0 tr 0 ?len] =>
      destruct (issue_dma_trace pl s0 tr 0 len) as (ret & rest & ->)
  end.
  cbn [buffer set_buffer set_pixbuf dev].
  eexists _, rest. do 4 f_equal.
  rewrite to_u32_id by lia.
  replace (Z.to_nat (n * 12 + 15))
    with (length (flat_map (pixel_bytes (brightness s)) ws
                    ++ replicate (Z.to_nat 15) 0)).
  - change (drop (Z.to_nat 0)) with (@drop Z 0).
    by rewrite drop_0, take_app_length.
  - rewrite length_app, length_replicate.
    assert (length (flat_map (pixel_bytes (brightness s)) ws)
            = (12 * length ws)%nat) as ->; [|lia].
    clear. induction ws as [|w ws IH]; [done|].
    cbn [flat_map length]. rewrite length_app, pixel_bytes_length, IH. lia.
Qed.

Lemma write_encodes_words_in_order_witness :
  exists (s' : ws2812_state) (rest : list event),
    ws2812_write dma_ok one_led [] (Some <$> flat_map le_bytes [0x112233])
      (4 * Z.of_nat (length [0x112233]))
    = Some (4 * Z.of_nat (length [0x112233]), s',
            [] ++ Call_dma_map_single (dev one_led)
                    (flat_map (pixel_bytes (brightness one_led)) [0x112233]
                       ++ replicate (Z.to_nat RESET_BYTES) 0)
                    (Z.of_nat (length [0x112233]) * BYTES_PER_LED
                     + RESET_BYTES)
                    (map_result dma_ok) :: rest).
Proof.
  apply (write_encodes_words_in_order dma_ok one_led [] [0x112233]).
  - repeat split; by vm_compute.
  - repeat constructor; by vm_compute.
  - by vm_compute.
Defined.

Lemma state_wf_update (s s' : ws2812_state) :
  state_wf s ->
  brightness s' = brightness s -> num_leds s' = num_leds s ->
  length (buffer s') = length (buffer s) ->
  length (pixbuf s') = length (pixbuf s) ->
  state_wf s'.
Proof.
  intros [Hb Hn Hfit Hbuf Hpix] Eb En Ebuf Epix.
  split; rewrite ?Eb, ?En, ?Ebuf, ?Epix; done.
Qed.

(** X13: a write of fewer pixels than [num_leds] leaves the buffer beyond
    its frame as it was: the buffer keeps its length, and its bytes from
    offset [k * 12 + RESET_BYTES] on, [k] the number of pixels accepted, are
    those from before the write. *)
Theorem write_keeps_buffer_tail (pl : platform) (s : ws2812_state)
    (tr : list event) (buf : user_mem) (count : Z) :
  state_wf s -> 0 <= count < 2 ^ 32 ->
  readable buf (Z.to_nat (4 * Z.min (count / 4) (num_leds s))) ->
  exists (s' : ws2812_state) (tr' : list event),
    ws2812_write pl s tr buf count = Some (C.to_int count, s', tr') /\
    length (buffer s') = length (buffer s) /\
    drop (Z.to_nat
            (Z.min (count / 4) (num_leds s) * BYTES_PER_LED + RESET_BYTES))
      (buffer s')
    = drop (Z.to_nat
              (Z.min (count / 4) (num_leds s) * BYTES_PER_LED + RESET_BYTES))
        (buffer s).
Proof.
  intros Hwf Hcount Hread.
  rewrite ws2812_write_ok by done.
  set (k := Z.min (count / 4) (num_leds s)) in *.
  set (s1 := (copy_from_user s buf (4 * k)).2).
  set (f := frame_bytes (Z.to_nat k) (brightness s) (pixbuf s1) 0
              ++ replicate (Z.to_nat RESET_BYTES) 0).
  destruct (issue_dma_trace pl
              (set_buffer s1 (f ++ drop (length f) (buffer s)))
              tr 0 (k * BYTES_PER_LED + RESET_BYTES))
    as (ret & rest & ->).
  destruct Hwf as [Hb Hn Hfit Hbuf Hpix].
  destruct consts as (HB & HR & HI). rewrite HB, HR, HI in *.
  assert (0 <= k <= num_leds s).
  { subst k. pose proof (Z.div_pos count 4). lia. }
  assert (length f = Z.to_nat (k * 12 + 15)) as Hf.
  { subst f. rewrite length_app, frame_bytes_length, length_replicate. lia. }
  eexists _, _. split; [reflexivity|].
  cbn [buffer set_buffer set_dma_addr]. split.
  - rewrite length_app, length_drop. lia.
  - by rewrite <- Hf, drop_app_length.
Qed.

Lemma write_keeps_buffer_tail_witness :
  exists (s' : ws2812_state) (tr' : list event),
    ws2812_write dma_ok one_led [] [] 3 = Some (C.to_int 3, s', tr') /\
    length (buffer s') = length (buffer one_led) /\
    drop (Z.to_nat
            (Z.min (3 / 4) (num_leds one_led) * BYTES_PER_LED + RESET_BYTES))
      (buffer s')
    = drop (Z.to_nat
              (Z.min (3 / 4) (num_leds one_led) * BYTES_PER_LED
               + RESET_BYTES))
        (buffer one_led).
Proof.
  apply (write_keeps_buffer_tail dma_ok one_led [] [] 3).
  - repeat split; by vm_compute.
  - lia.
  - intros i Hi. change (i < 0)%nat in Hi. lia.
Defined.

(** X14: [ws2812_write] keeps the invariant of the driver state.  On every
    state probe leaves, for every byte count, user memory and platform, it
    returns (no access outside [pixbuf] or [buffer]), with [-EFAULT] or the
    byte count, and the state it leaves satisfies the invariant again. *)
Theorem write_keeps_state_wf (pl : platform) (s : ws2812_state)
    (tr : list event) (buf : user_mem) (count : Z) :
  state_wf s -> 0 <= count < 2 ^ 32 ->
  exists (ret : Z) (s' : ws2812_state) (tr' : list event),
    ws2812_write pl s tr buf count = Some (ret, s', tr') /\
    (ret = - EFAULT \/ ret = C.to_int count) /\
    state_wf s'.
Proof.
  intros Hwf Hcount.
  set (k := Z.min (count / 4) (num_leds s)).
  pose proof Hwf as [Hb Hn Hfit Hbuf Hpix].
  destruct consts as (HB & HR & HI). rewrite HB, HR, HI in *.
  assert (0 <= k <= num_leds s).
  { subst k. pose proof (Z.div_pos count 4). lia. }
  pose proof (copy_from_user_state s buf (4 * k)) as Hst. cbv zeta in Hst.
  destruct Hst as (Hbuf1 & Hb1 & Hn1 & _ & _ & Hpix1).
  specialize (Hpix1 ltac:(lia)).
  destruct (decide (length (readable_prefix buf (Z.to_nat (4 * k)))
                    = Z.to_nat (4 * k))) as [Hr|Hr];
    rewrite <- readable_prefix_full in Hr.
  - rewrite ws2812_write_ok by done. fold k.
    match goal with
    | |- context [issue_dma pl ?s0 tr 0 ?len] =>
        destruct (issue_dma_trace pl s0 tr 0 len) as (ret & rest & ->)
    end.
    eexists _, _, _. split; [reflexivity|]. split; [by right|].
    apply (state_wf_update s); cbn [brightness num_leds buffer pixbuf
                                     set_dma_addr set_buffer]; try done.
    rewrite !length_app, length_drop, frame_bytes_length, length_replicate.
    rewrite HR. lia.
  - rewrite ws2812_write_fault by done. fold k.
    eexists _, _, _. split; [reflexivity|]. split; [by left|].
    apply (state_wf_update s); done.
Qed.

Lemma write_keeps_state_wf_witness :
  exists (ret : Z) (s' : ws2812_state) (tr' : list event),
    ws2812_write dma_prep_fails one_led [] [Some 1; None] 100
    = Some (ret, s', tr') /\
    (ret = - EFAULT \/ ret = C.to_int 100) /\
    state_wf s'.
Proof.
  apply (write_keeps_state_wf dma_prep_fails one_led [] [Some 1; None] 100).
  - repeat split; by vm_compute.
  - lia.
Defined.

Lemma clear_leds_keeps_state_wf_aux (pl : platform) (s : ws2812_state)
    (tr : list event) :
  state_wf s ->
  exists (s' : ws2812_state) (tr' : list event),
    clear_leds pl s tr = Some (0, s', tr') /\
    (state_wf s' /\ brightness s' = brightness s /\
     num_leds s' = num_leds s /\ dev s' = dev s /\
     dma_chan s' = dma_chan s /\
     buffer s'
     = replicate (Z.to_nat (num_leds s * BYTES_PER_LED)) 0x88
         ++ replicate (Z.to_nat RESET_BYTES) 0).
Proof.
  intros Hwf. rewrite clear_leds_spec by done.
  match goal with
  | |- context [issue_dma pl ?s0 tr 0 ?len] =>
      destruct (issue_dma_trace pl s0 tr 0 len) as (ret & rest & ->)
  end.
  eexists _, _. split; [reflexivity|].
  split; [|done].
  apply (state_wf_update s); cbn [brightness num_leds buffer pixbuf
                                   set_dma_addr set_buffer]; try done.
  destruct Hwf as [Hb Hn Hfit Hbuf Hpix].
  destruct consts as (HB & HR & HI). rewrite HB, HR, HI in *.
  rewrite length_app, !length_replicate. lia.
Qed.

(** X15: [clear_leds] keeps the invariant of the driver state and returns
    0 on every platform: a failed mapping or descriptor request does not
    show in its return value. *)
Theorem clear_leds_keeps_state_wf (pl : platform) (s : ws2812_state)
    (tr : list event) :
  state_wf s ->
  exists (s' : ws2812_state) (tr' : list event),
    clear_leds pl s tr = Some (0, s', tr') /\ state_wf s'.
Proof.
  intros Hwf.
  destruct (clear_leds_keeps_state_wf_aux pl s tr Hwf)
    as (s' & tr' & Hc & Hwf' & _).
  by exists s', tr'.
Qed.

Lemma clear_leds_keeps_state_wf_witness :
  exists (s' : ws2812_state) (tr' : list event),
    clear_leds dma_map_fails one_led [] = Some (0, s', tr') /\ state_wf s'.
Proof.
  apply (clear_leds_keeps_state_wf dma_map_fails one_led []).
  repeat split; by vm_compute.
Defined.

Lemma readable_prefix_take (from : user_mem) (n : nat) :
  readable_prefix (take n from) n = readable_prefix from n.
Proof.
  revert from. induction n as [|n IH]; intros from.
  - by destruct from.
  - destruct from as [|[b|] from]; simpl; [done| |done]. by rewrite IH.
Qed.

(** X16: a write reads no more than the [4 * min(count / 4, num_leds)]
    first bytes of user memory: two user buffers that agree on them give
    the same return value, state and trace. *)
Theorem write_reads_prefix_only (pl : platform) (s : ws2812_state)
    (tr : list event) (buf buf' : user_mem) (count : Z) :
  state_wf s -> 0 <= count < 2 ^ 32 ->
  take (Z.to_nat (4 * Z.min (count / 4) (num_leds s))) buf
  = take (Z.to_nat (4 * Z.min (count / 4) (num_leds s))) buf' ->
  ws2812_write pl s tr buf count = ws2812_write pl s tr buf' count.
Proof.
  intros [Hb Hn Hfit Hbuf Hpix] Hcount Htake.
  destruct consts as (HB & HR & HI). rewrite HB, HR, HI in *.
  unfold ws2812_write.
  set (k := Z.min (count / 4) (num_leds s)) in *.
  assert (0 <= k <= num_leds s).
  { subst k. pose proof (Z.div_pos count 4). lia. }
  rewrite (to_int_id k) by lia.
  rewrite to_u32_id by lia.
  replace (k * 4) with (4 * k) by lia.
  unfold copy_from_user.
  rewrite <- (readable_prefix_take buf), <- (readable_prefix_take buf').
  by rewrite Htake.
Qed.

Lemma write_reads_prefix_only_witness :
  ws2812_write dma_ok one_led [] [Some 1; Some 2; Some 3; Some 4; Some 5] 7
  = ws2812_write dma_ok one_led [] [Some 1; Some 2; Some 3; Some 4; None] 7.
Proof.
  apply (write_reads_prefix_only dma_ok one_led []
           [Some 1; Some 2; Some 3; Some 4; Some 5]
           [Some 1; Some 2; Some 3; Some 4; None] 7).
  - repeat split; by vm_compute.
  - lia.
  - reflexivity.
Defined.

(** X17: when [dma_map_single] fails during a write, the write still
    returns the byte count, makes no further call into the DMA API (only
    the log line follows), holds no mapping it did not hold before, and
    leaves [dma_addr] at 0. *)
Theorem write_map_failure (pl : platform) (s : ws2812_state)
    (tr : list event) (buf : user_mem) (count : Z) :
  state_wf s -> 0 <= count < 2 ^ 32 ->
  readable buf (Z.to_nat (4 * Z.min (count / 4) (num_leds s))) ->
  map_result pl = 0 ->
  exists (s' : ws2812_state) (frame : list Z),
    ws2812_write pl s tr buf count
    = Some (C.to_int count, s',
            tr ++ [Call_dma_map_single (dev s) frame
                     (Z.min (count / 4) (num_leds s) * BYTES_PER_LED
                      + RESET_BYTES) 0;
                   Call_pr_err "Failed to map buffer for DMA"]) /\
    dma_addr s' = 0 /\
    held_mappings
      (tr ++ [Call_dma_map_single (dev s) frame
                (Z.min (count / 4) (num_leds s) * BYTES_PER_LED
                 + RESET_BYTES) 0;
              Call_pr_err "Failed to map buffer for DMA"])
    = held_mappings tr.
Proof.
  intros Hwf Hcount Hread Hmap.
  rewrite ws2812_write_ok by done.
  set (k := Z.min (count / 4) (num_leds s)) in *.
  destruct Hwf as [Hb Hn Hfit Hbuf Hpix].
  destruct consts as (HB & HR & HI). rewrite HB, HR, HI in *.
  assert (0 <= k <= num_leds s).
  { subst k. pose proof (Z.div_pos count 4). lia. }
  unfold issue_dma, copy_from_user.
  cbn [snd dev dma_addr dma_chan set_dma_addr set_buffer set_pixbuf].
  rewrite Hmap. cbn [Z.eqb]. cbv beta iota. rewrite <- (app_assoc tr).
  rewrite to_u32_id by lia.
  eexists _, _. split; [reflexivity|]. split; [reflexivity|].
  unfold held_mappings. by rewrite held_from_app.
Qed.

Lemma write_map_failure_witness :
  exists (s' : ws2812_state) (frame : list Z),
    ws2812_write dma_map_fails one_led [] (replicate 4 (Some 0)) 4
    = Some (C.to_int 4, s',
            [] ++ [Call_dma_map_single (dev one_led) frame
                     (Z.min (4 / 4) (num_leds one_led) * BYTES_PER_LED
                      + RESET_BYTES) 0;
                   Call_pr_err "Failed to map buffer for DMA"]) /\
    dma_addr s' = 0 /\
    held_mappings
      ([] ++ [Call_dma_map_single (dev one_led) frame
                (Z.min (4 / 4) (num_leds one_led) * BYTES_PER_LED
                 + RESET_BYTES) 0;
              Call_pr_err "Failed to map buffer for DMA"])
    = held_mappings [].
Proof.
  apply (write_map_failure dma_map_fails one_led [] (replicate 4 (Some 0)) 4).
  - repeat split; by vm_compute.
  - lia.
  - apply (readable_replicate 4 0).
  - reflexivity.
Defined.

(** ** [pwm_init] *)

(** X18: [pwm_init] writes, in this order, 32 to RNG1, 0 to DAT1, the
    control word to CTL and 0x80000408 to DMAC, and returns 0.  The control
    word is 0xE3 when [invert] is 0 and 0x8F3 for every other value of
    [invert]: the polarity bit (4) and the silence bit (11) are set
    together, exactly when [invert] is not 0. *)
Theorem pwm_init_registers (s : ws2812_state) (base : Z) (io : list (Z * Z)) :
  pwm_init s base io
  = (0, io ++ [(base + PWM_RNG1, 32); (base + PWM_DAT1, 0);
               (base + PWM_CTL, if invert s =? 0 then 0xe3 else 0x8f3);
               (base + PWM_DMAC, 0x80000408)]) /\
  Z.testbit (if invert s =? 0 then 0xe3 else 0x8f3) 4
  = negb (invert s =? 0) /\
  Z.testbit (if invert s =? 0 then 0xe3 else 0x8f3) 11
  = negb (invert s =? 0).
Proof.
  unfold pwm_init, pwm_writel. rewrite <- !app_assoc.
  destruct (invert s =? 0); repeat split.
Qed.

(** ** Probe and remove *)

Lemma to_u32_nonneg (x : Z) : (C.to_u32 x <? 0) = false.
Proof.
  apply Z.ltb_ge. unfold C.to_u32.
  pose proof (Z.mod_pos_bound x (2 ^ 32)). lia.
Qed.

Lemma ledger_app (a b : list kcall) :
  forall held : list resource,
  ledger (a ++ b) held = held' ← ledger a held; ledger b held'.
Proof.
  induction a as [|e a IH]; intros held; [done|].
  cbn [app ledger].
  destruct (released e) as [r|].
  - destruct (take_out r held) as [h|]; cbn [mbind option_bind]; [apply IH|done].
  - destruct (acquired e); apply IH.
Qed.

Lemma ledger_neutral (l : list kcall) (held : list resource) :
  Forall (fun e => released e = None /\ acquired e = None) l ->
  ledger l held = Some held.
Proof.
  induction 1 as [|e l [Hr Ha] _ IH]; [done|].
  cbn [ledger]. by rewrite Hr, Ha.
Qed.

Lemma ledger_writel (io : list (Z * Z)) (held : list resource) :
  ledger ((fun w => K_writel w.1 w.2) <$> io) held = Some held.
Proof. apply ledger_neutral, Forall_fmap, Forall_true. done. Qed.

Lemma ledger_dma (tr : list event) (held : list resource) :
  ledger (K_dma <$> tr) held = Some held.
Proof. apply ledger_neutral, Forall_fmap, Forall_true. done. Qed.

(** Case analysis along the tests of probe, in their order. *)
Ltac probe_cbn :=
  cbn [of_node state_mem chrdev_ret class_ptr device_ptr cdev_add_ret
       dt_invert dt_num_leds pixbuf_mem reg_cell ioremap_ptr buffer_mem
       dma_chan_ptr slave_config_ret gpiod_ptr dma_answers
       core cl ioaddr phys_addr led_en set_core
       dev dma_chan dma_addr buffer pixbuf brightness invert num_leds
       set_pixbuf set_buffer kmalloc fmap option_fmap option_map negb andb
       all_succeed present of_property_read_u32].

Ltac probe_cases env :=
  let node := fresh "node" in
  let smem := fresh "smem" in
  let cret := fresh "cret" in
  let cptr := fresh "cptr" in
  let dptr := fresh "dptr" in
  let caret := fresh "caret" in
  let dinv := fresh "dinv" in
  let dnl := fresh "dnl" in
  let pmem := fresh "pmem" in
  let cell := fresh "cell" in
  let iptr := fresh "iptr" in
  let bmem := fresh "bmem" in
  let chptr := fresh "chptr" in
  let scr := fresh "scr" in
  let gptr := fresh "gptr" in
  let pl := fresh "pl" in
  destruct env as [node smem cret cptr dptr caret dinv dnl pmem cell iptr
                     bmem chptr scr gptr pl];
  unfold ws2812_probe, all_succeed in *; probe_cbn;
  destruct node; probe_cbn; [|shelve];
  destruct smem as [?d0|]; probe_cbn; [|shelve];
  destruct (cret <? 0) eqn:Ecret; probe_cbn; [shelve|];
  destruct (cptr =? 0) eqn:Ecl; probe_cbn; [shelve|];
  destruct (dptr =? 0) eqn:Edev; probe_cbn; [shelve|];
  destruct (caret =? 0) eqn:Ecdev; probe_cbn; [|shelve];
  destruct pmem as [?g|]; probe_cbn; [|shelve];
  destruct cell as [?c|]; probe_cbn; [|shelve];
  destruct (IS_ERR iptr) eqn:Eio; probe_cbn; [shelve|];
  destruct bmem as [?g|]; probe_cbn; [|shelve];
  destruct (chptr =? 0) eqn:Ech; probe_cbn; [shelve|];
  rewrite to_u32_nonneg.

Tactic Notation "probe_cbn" "in" hyp(H) :=
  cbn [of_node state_mem chrdev_ret class_ptr device_ptr cdev_add_ret
       dt_invert dt_num_leds pixbuf_mem reg_cell ioremap_ptr buffer_mem
       dma_chan_ptr slave_config_ret gpiod_ptr dma_answers
       core cl ioaddr phys_addr led_en set_core
       dev dma_chan dma_addr buffer pixbuf brightness invert num_leds
       set_pixbuf set_buffer kmalloc fmap option_fmap option_map negb andb
       all_succeed present of_property_read_u32] in H.

Ltac ledger_eval :=
  cbn [app ledger acquired released take_out resource_eqb resource_of
       fail_malloc fail_chrdev fail_class fail_device fail_cdev fail_pixbuf
       fail_buffer fail_dma_init
       mbind option_bind fmap option_fmap option_map].



Lemma probe_ok_aux (env : probe_env) (pdev_dev n : Z) :
  dt_num_leds env = Some n ->
  0 <= n -> n * BYTES_PER_LED + RESET_BYTES <= C.INT_MAX ->
  all_succeed env = true ->
  exists (d : ws2812_dev) (tr : list kcall),
    ws2812_probe env pdev_dev = Some (0, Some d, tr) /\
    state_wf (core d) /\
    brightness (core d) = 255 /\
    num_leds (core d) = n /\
    dev (core d) = pdev_dev /\
    buffer (core d)
    = replicate (Z.to_nat (n * BYTES_PER_LED)) 0x88
        ++ replicate (Z.to_nat RESET_BYTES) 0 /\
    ledger tr []
    = Some [R_dma_chan; R_buffer; R_pixbuf; R_cdev; R_device; R_class;
            R_chrdev_region; R_state].
Proof.
  intros Hn Hlo Hhi Hall.
  destruct consts as (HB & HR & HI). rewrite HB, HR, HI in *.
  revert Hall.
  unshelve (probe_cases env); cbn in Hn; subst;
    try (probe_cbn; rewrite ?andb_false_r; intros; discriminate).
  intros _. destruct (pwm_init _ _ _) as [r io]. probe_cbn.
  rewrite !(to_u32_id n) by lia.
  match goal with
  | |- context [clear_leds pl ?s0 []] =>
      destruct (clear_leds_keeps_state_wf_aux pl s0 [])
        as (s' & tr' & -> & Hwf & Hb' & Hn' & Hd' & _ & Hbuf')
  end.
  { split; probe_cbn; rewrite ?length_fmap, ?length_seq, ?HB, ?HR, ?HI;
      rewrite ?to_u32_id by lia; lia. }
  cbn [mbind option_bind]. probe_cbn in Hb'. probe_cbn in Hn'.
  probe_cbn in Hd'. probe_cbn in Hbuf'. rewrite HB, HR in Hbuf'.
  eexists _, _. split; [reflexivity|]. probe_cbn.
  do 5 (split; [done|]).
  rewrite !ledger_app. ledger_eval.
  rewrite Ecret, Ecl, Edev, Ecdev, Ech. ledger_eval.
  rewrite ledger_writel. ledger_eval. by rewrite ledger_dma.
Qed.

(** X20: a successful probe establishes the invariant the other entry
    points rely on.  The state it registers has brightness 255, the number
    of LEDs of the device tree, arrays of [num_leds * 4] and
    [num_leds * 12 + RESET_BYTES] bytes, and a buffer holding the cleared
    frame. *)
Theorem probe_establishes_state_wf (env : probe_env) (pdev_dev n : Z) :
  dt_num_leds env = Some n ->
  0 <= n -> n * BYTES_PER_LED + RESET_BYTES <= C.INT_MAX ->
  all_succeed env = true ->
  exists (d : ws2812_dev) (tr : list kcall),
    ws2812_probe env pdev_dev = Some (0, Some d, tr) /\
    state_wf (core d) /\
    brightness (core d) = 255 /\
    num_leds (core d) = n /\
    dev (core d) = pdev_dev /\
    buffer (core d)
    = replicate (Z.to_nat (n * BYTES_PER_LED)) 0x88
        ++ replicate (Z.to_nat RESET_BYTES) 0.
Proof.
  intros Hn Hlo Hhi Hall.
  destruct (probe_ok_aux env pdev_dev n Hn Hlo Hhi Hall)
    as (d & tr & Hp & Hwf & Hb & Hnl & Hd & Hbuf & _).
  by exists d, tr.
Qed.

Lemma probe_establishes_state_wf_witness :
  exists (d : ws2812_dev) (tr : list kcall),
    ws2812_probe env_ok 77 = Some (0, Some d, tr) /\
    state_wf (core d) /\
    brightness (core d) = 255 /\
    num_leds (core d) = 2 /\
    dev (core d) = 77 /\
    buffer (core d)
    = replicate (Z.to_nat (2 * BYTES_PER_LED)) 0x88
        ++ replicate (Z.to_nat RESET_BYTES) 0.
Proof.
  apply (probe_establishes_state_wf env_ok 77 2);
    [reflexivity | lia | by vm_compute | reflexivity].
Defined.



(** X22: when [class_create] or [device_create] fails, probe gives the
    chrdev region back twice, and after a failed [device_create] the class
    twice as well: once in the branch of the failed call and once more at
    the label it jumps to. *)
Theorem probe_create_failure_releases_twice (env : probe_env) (pdev_dev : Z) :
  of_node env = true -> present (state_mem env) = true ->
  0 <= chrdev_ret env ->
  class_ptr env = 0 \/ device_ptr env = 0 ->
  exists tr : list kcall,
    ws2812_probe env pdev_dev = Some (-1, None, tr) /\
    releases R_chrdev_region tr = 2%nat /\
    (class_ptr env <> 0 -> releases R_class tr = 2%nat) /\
    ledger tr [] = None.
Proof.
  intros Hnode Hstate Hcret Hfail. revert Hnode Hstate Hcret Hfail.
  unshelve (probe_cases env);
    try (intros; first [discriminate | lia]);
    try (intros _ _ _ Hfail; eexists; split; [reflexivity|];
         repeat (ledger_eval; rewrite ?Ecret, ?Ecl, ?Edev, ?Ecdev, ?Ech);
         split; [reflexivity|]; split; [|reflexivity];
         first [ reflexivity | apply Z.eqb_eq in Ecl; intros; lia ]);
    try (intros _ _ _ Hfail; exfalso;
         apply Z.eqb_neq in Ecl; apply Z.eqb_neq in Edev; lia).
Qed.

Lemma probe_create_failure_releases_twice_witness :
  exists tr : list kcall,
    ws2812_probe env_no_class 77 = Some (-1, None, tr) /\
    releases R_chrdev_region tr = 2%nat /\
    (class_ptr env_no_class <> 0 -> releases R_class tr = 2%nat) /\
    ledger tr [] = None.
Proof.
  apply (probe_create_failure_releases_twice env_no_class 77);
    [reflexivity | reflexivity | by vm_compute | by left].
Defined.

(** X23: remove undoes a successful probe.  It returns 0 and gives back
    every resource probe obtained, each once, so that none is held
    afterwards. *)
Theorem probe_then_remove (env : probe_env) (pdev_dev n : Z) :
  dt_num_leds env = Some n ->
  0 <= n -> n * BYTES_PER_LED + RESET_BYTES <= C.INT_MAX ->
  all_succeed env = true ->
  exists (d : ws2812_dev) (tr : list kcall),
    ws2812_probe env pdev_dev = Some (0, Some d, tr) /\
    (ws2812_remove d).1 = 0 /\
    ledger (tr ++ (ws2812_remove d).2) [] = Some [].
Proof.
  intros Hn Hlo Hhi Hall.
  destruct (probe_ok_aux env pdev_dev n Hn Hlo Hhi Hall)
    as (d & tr & Hp & _ & _ & _ & _ & _ & Hl).
  exists d, tr. split; [done|]. split; [reflexivity|].
  rewrite ledger_app, Hl. reflexivity.
Qed.

Lemma probe_then_remove_witness :
  exists (d : ws2812_dev) (tr : list kcall),
    ws2812_probe env_ok 77 = Some (0, Some d, tr) /\
    (ws2812_remove d).1 = 0 /\
    ledger (tr ++ (ws2812_remove d).2) [] = Some [].
Proof.
  apply (probe_then_remove env_ok 77 2);
    [reflexivity | lia | by vm_compute | reflexivity].
Defined.

(** ** The sound driver *)

Lemma sysclk_for_rate_named (rate : Z) :
  rate ∈ named_rates ->
  ((sysclk_for_rate rate).1 = 12288000 \/ (sysclk_for_rate rate).1 = 11289600)
  /\ (sysclk_for_rate rate).1 mod rate = 0
  /\ 64 <= (sysclk_for_rate rate).1 / rate <= 384.
Proof.
  unfold named_rates. rewrite !elem_of_cons, elem_of_nil.
  intros [->|[->|[->|[->|[->|[->|[->|[->|[->|[]]]]]]]]]];
    (split; [first [by left | by right]|]); split; by vm_compute.
Qed.

Lemma hw_params_clock_calls (env : snd_env) (rate : Z) :
  S_clk_set_rate (sysclk_for_rate rate).1 (clk_set_rate_ret env)
    ∈ (snd_slice_hw_params env rate).2 /\
  S_set_sysclk (sysclk_for_rate rate).1 (set_sysclk_ret env)
    ∈ (snd_slice_hw_params env rate).2.
Proof.
  unfold snd_slice_hw_params.
  destruct (sysclk_for_rate rate) as [sysclk [msg|]]; cbn [fst];
  destruct (clk_set_rate_ret env <? 0), (clk_prepare_enable_ret env <? 0),
    (cpu_fmt_ret env =? 0), (codec_fmt_ret env =? 0);
    cbn [negb snd]; rewrite !elem_of_app, !list_elem_of_singleton;
    split; tauto.
Qed.

(** X24: for every sample rate the [switch] names, the system clock that
    [snd_slice_hw_params] sets on the gp0 clock and passes to the codec is
    12288000 or 11289600 and a whole multiple of the sample rate, between
    64 and 384 times it. *)
Theorem hw_params_sysclk_multiple (env : snd_env) (rate : Z) :
  rate ∈ named_rates ->
  exists sysclk : Z,
    S_clk_set_rate sysclk (clk_set_rate_ret env)
      ∈ (snd_slice_hw_params env rate).2 /\
    S_set_sysclk sysclk (set_sysclk_ret env)
      ∈ (snd_slice_hw_params env rate).2 /\
    (sysclk = 12288000 \/ sysclk = 11289600) /\
    sysclk mod rate = 0 /\
    64 <= sysclk / rate <= 384.
Proof.
  intros Hrate. exists (sysclk_for_rate rate).1.
  destruct (hw_params_clock_calls env rate) as [H1 H2].
  destruct (sysclk_for_rate_named rate Hrate) as (H3 & H4 & H5).
  done.
Qed.

Lemma hw_params_sysclk_multiple_witness :
  exists sysclk : Z,
    S_clk_set_rate sysclk (clk_set_rate_ret snd_env_codec_refuses)
      ∈ (snd_slice_hw_params snd_env_codec_refuses 44100).2 /\
    S_set_sysclk sysclk (set_sysclk_ret snd_env_codec_refuses)
      ∈ (snd_slice_hw_params snd_env_codec_refuses 44100).2 /\
    (sysclk = 12288000 \/ sysclk = 11289600) /\
    sysclk mod 44100 = 0 /\
    64 <= sysclk / 44100 <= 384.
Proof.
  apply (hw_params_sysclk_multiple snd_env_codec_refuses 44100).
  unfold named_rates. rewrite !elem_of_cons. tauto.
Defined.

(** X25: [snd_slice_hw_params] returns what the first failing
    [snd_soc_dai_set_fmt] returned, and 0 when both succeed; what the clock
    calls and [snd_soc_dai_set_sysclk] return never shows in it.  The codec
    format is set only after the cpu format was, and the bclk ratio only
    when it returns 0. *)
Theorem hw_params_return_value (env : snd_env) (rate : Z) :
  (snd_slice_hw_params env rate).1
  = (if cpu_fmt_ret env =? 0 then codec_fmt_ret env else cpu_fmt_ret env) /\
  (S_set_fmt codec_dai (codec_fmt_ret env) ∈ (snd_slice_hw_params env rate).2
   <-> cpu_fmt_ret env = 0) /\
  (S_set_bclk_ratio cpu_dai 64 ∈ (snd_slice_hw_params env rate).2
   <-> (snd_slice_hw_params env rate).1 = 0).
Proof.
  unfold snd_slice_hw_params.
  destruct (sysclk_for_rate rate) as [sysclk [msg|]];
  destruct (clk_set_rate_ret env <? 0), (clk_prepare_enable_ret env <? 0);
  destruct (Z.eqb_spec (cpu_fmt_ret env) 0) as [Hc|Hc];
  try destruct (Z.eqb_spec (codec_fmt_ret env) 0) as [Hd|Hd];
    cbn [negb fst snd];
    rewrite !elem_of_app, ?elem_of_nil, !list_elem_of_singleton;
    (split; [done|]); split;
    (split; [intros; intuition (first [discriminate | congruence | lia])
            | intros; first [tauto | lia]]).
Qed.

Lemma PTR_ERR_of_IS_ERR (ptr : Z) :
  IS_ERR ptr = true -> - 4095 <= PTR_ERR ptr <= -1.
Proof.
  unfold IS_ERR, PTR_ERR, C.to_u32, C.to_int. intros H.
  apply Z.leb_le in H.
  change (2 ^ 32) with 4294967296 in *. change (2 ^ 31) with 2147483648.
  Z.div_mod_to_equations. lia.
Qed.

(** X26: [snd_slice_probe] returns 0 exactly when the card is registered,
    the gp0 clock is obtained, its rate set and the clock enabled.  When
    registering the card fails it returns that error without asking for the
    clock; when a later step fails it returns a non-zero error and the card
    is not unregistered. *)
Theorem snd_probe_return_value (env : snd_env) :
  ((snd_slice_probe env).1 = 0
   <-> register_card_ret env = 0 /\ IS_ERR (clk_get_ptr env) = false /\
       clk_set_rate_ret env = 0 /\ clk_prepare_enable_ret env = 0) /\
  (register_card_ret env <> 0 ->
   (snd_slice_probe env).1 = register_card_ret env /\
   S_devm_clk_get (clk_get_ptr env) ∉ (snd_slice_probe env).2) /\
  S_unregister_card ∉ (snd_slice_probe env).2.
Proof.
  unfold snd_slice_probe.
  pose proof (PTR_ERR_of_IS_ERR (clk_get_ptr env)) as Hptr.
  destruct (has_of_node env);
  destruct (Z.eqb_spec (register_card_ret env) 0) as [Hr|Hr];
  try destruct (IS_ERR (clk_get_ptr env)) eqn:Hio;
  try destruct (Z.eqb_spec (clk_set_rate_ret env) 0) as [Hs|Hs];
  try destruct (Z.eqb_spec (clk_prepare_enable_ret env) 0) as [He|He];
    cbn [negb fst snd];
    rewrite ?elem_of_app, ?elem_of_cons, ?elem_of_nil;
    (split; [split; [intros; first [lia | tauto | specialize (Hptr eq_refl); lia]
                    | intros (? & ? & ? & ?);
                      first [done | lia | discriminate]]|]);
    (split; [intros; first [done | split; [done|]];
             intuition (first [discriminate | congruence])
            | intuition (first [discriminate | congruence])]).
Qed.
